(** * Zero-trust network simulator: the engine of [main.py]

    A shallow embedding of class [ZeroTrustNetworkSimulator]: the topology
    store, the risk evaluator, the activity generator, the two attack
    simulations and the reset, followed by the properties of the engine.

    Modelling choices.
    - A Python [float] is an IEEE 754 binary64 number: Rocq's primitive
      [float], with the same round-to-nearest-even operations and the same
      reading of decimal literals.
    - A Python [int] is a [Z] (or a [nat] where it is a length).
    - A [dict] is an association list in insertion order, which is the
      order Python walks it in; assigning to a key that is present keeps
      its place.  A [set] of strings is a list without repetition.
      Python walks a set in an order of its own: the order of the list
      stands for it.  The attack properties are proved from every state,
      hence for every order, and the graph invariant does not mention it.
    - A method is a computation in the monad [M]: it reads and writes the
      simulator object [self], appends to the events emitted on the socket,
      draws from the host's random source and clock, and either returns a
      value or raises.  A raise keeps the state reached so far.
    - A background thread runs to completion where it is started; an
      exception inside it does not reach the caller.  [time.sleep] only
      lets time pass and is a no-op on the state. *)

From Stdlib Require Import ZArith QArith Qabs Floats String DecimalString.
From stdpp Require Import base list strings.

Set Warnings "-inexact-float".
#[local] Open Scope Z_scope.

(** ** Floating point helpers *)

(** The exact rational value of a finite binary64 number. *)
Definition float_value (x : float) : option Q :=
  match Prim2SF x with
  | S754_zero _ => Some 0%Q
  | S754_finite s m e =>
      let mag := if 0 <=? e then inject_Z (Z.pos m * 2 ^ e)
                 else (Z.pos m # Pos.pow 2 (Z.to_pos (- e)))%Q in
      Some (if s then Qopp mag else mag)
  | S754_infinity _ | S754_nan => None
  end.

(** [within x target tol]: the float [x] is finite and lies within [tol] of
    the rational [target]. *)
Definition within (x : float) (target tol : Q) : bool :=
  match float_value x with
  | Some q => Qle_bool (Qabs (q - target)) tol
  | None => false
  end.

(** Nearest integer to [n / d] for [d > 0], ties going to the even one. *)
Definition round_half_even (n d : Z) : Z :=
  let q := n / d in
  let r := n mod d in
  if 2 * r <? d then q
  else if d <? 2 * r then q + 1
  else if Z.even q then q else q + 1.

(** The magnitude [m * 2^e] in tenths, correctly rounded. *)
Definition tenths (m : positive) (e : Z) : Z :=
  if 0 <=? e then Z.pos m * 2 ^ e * 10
  else round_half_even (Z.pos m * 10) (2 ^ (- e)).

(** [str(n)] for a Python int that is not negative. *)
Definition str (n : Z) : string :=
  NilZero.string_of_uint (N.to_uint (Z.to_N n)).

(** Python's [format(x, ".1f")]: one digit after the point, the exact binary
    value rounded half to even. *)
Definition format_f1 (x : float) : string :=
  let sign (s : bool) : string := if s then "-" else "" in
  match Prim2SF x with
  | S754_zero s => sign s +:+ "0.0"
  | S754_infinity s => sign s +:+ "inf"
  | S754_nan => "nan"
  | S754_finite s m e =>
      let t := tenths m e in
      sign s +:+ str (t / 10) +:+ "." +:+ str (t mod 10)
  end.

(** [float(n)] for a Python int. *)
Definition Z_to_float (n : Z) : float :=
  SF2Prim (binary_normalize prec emax n 0 false).

(** [sum(xs)] over floats: Python starts from the int [0] and adds from the
    left. *)
Definition sum (xs : list float) : float :=
  foldl PrimFloat.add 0%float xs.

(** ** Containers *)

(** [d.get(k)] *)
Fixpoint dict_get {V} (k : string) (d : list (string * V)) : option V :=
  match d with
  | [] => None
  | (k', v) :: rest => if decide (k' = k) then Some v else dict_get k rest
  end.

(** [d[k] = v] *)
Fixpoint dict_set {V} (k : string) (v : V) (d : list (string * V))
  : list (string * V) :=
  match d with
  | [] => [(k, v)]
  | (k', v') :: rest =>
      if decide (k' = k) then (k, v) :: rest else (k', v') :: dict_set k v rest
  end.

(** [list(d.keys())] and [list(d.values())] *)
Definition dict_keys {V} (d : list (string * V)) : list string := d.*1.

Definition dict_values {V} (d : list (string * V)) : list V := d.*2.

(** The dict with [f] applied to every value. *)
Definition dict_map_values {V W} (f : V -> W) (d : list (string * V))
  : list (string * W) :=
  (fun kv => (kv.1, f kv.2)) <$> d.

(** [s.add(x)] *)
Definition set_add (x : string) (s : list string) : list string :=
  if decide (x ∈ s) then s else s ++ [x].

(** [s - {x}] *)
Definition set_discard (x : string) (s : list string) : list string :=
  filter (fun y => y ≠ x) s.

(** ** Data model *)

Inductive DeviceType := ROUTER | SERVER | WORKSTATION | MOBILE | IOT.

Definition DeviceType_value (t : DeviceType) : string :=
  match t with
  | ROUTER => "router"
  | SERVER => "server"
  | WORKSTATION => "workstation"
  | MOBILE => "mobile"
  | IOT => "iot"
  end.

#[global] Instance DeviceType_eq_dec : EqDecision DeviceType.
Proof. solve_decision. Defined.

Inductive AccessDecision := ALLOW | DENY | CHALLENGE.

Definition AccessDecision_value (d : AccessDecision) : string :=
  match d with
  | ALLOW => "allowed"
  | DENY => "denied"
  | CHALLENGE => "challenged"
  end.

Inductive SecurityModel := ZEROTRUST | TRADITIONAL.

Definition SecurityModel_value (m : SecurityModel) : string :=
  match m with
  | ZEROTRUST => "zerotrust"
  | TRADITIONAL => "traditional"
  end.

(** [x] and [y] are annotated [float] in the source but always hold the
    ints of [devices_config]. *)
Record Device := mkDevice {
  device_id : string;
  device_type : DeviceType;
  ip_address : string;
  trust_score : float;
  is_compromised : bool;
  location : string;
  x : Z;
  y : Z
}.

Record User := mkUser {
  user_id : string;
  name : string;
  role : string;
  risk_score : float;
  department : string
}.

Record AccessRequest := mkAccessRequest {
  req_user_id : string;
  req_device_id : string;
  resource : string;
  action : string;
  timestamp : float
}.

(** [device.is_compromised = b] *)
Definition set_is_compromised (b : bool) (d : Device) : Device :=
  {| device_id := device_id d; device_type := device_type d;
     ip_address := ip_address d; trust_score := trust_score d;
     is_compromised := b; location := location d; x := x d; y := y d |}.

(** The object state of [ZeroTrustNetworkSimulator]. *)
Record Simulator := mkSimulator {
  devices : list (string * Device);
  users : list (string * User);
  network_graph : list (string * list string);
  activity_stats : list (string * Z);
  attack_sessions : list (string * list (string * string))
}.

(** The payloads handed to [socketio.emit]. *)
Inductive Event :=
| activity_update (user resource decision reason : string)
    (timestamp_ms : float) (stats : list (string * Z))
| attack_progress (source target result model reason : string)
    (compromised_nodes : list string) (attack_id : string)
| attack_complete (model : string) (compromised_count total_nodes : nat)
    (containment_effectiveness attack_id entry_point : string)
    (duration : float).

(** ** The host and the method monad *)

(** What the interpreter provides: the random generator's raw draws, the
    wall clock, fresh uuids, and the local hour of day of a timestamp
    ([datetime.fromtimestamp(t).hour], which depends on the time zone).
    Each draw, clock reading or uuid consumes one tick. *)
Record Host := mkHost {
  rand_source : nat -> N;
  wall_clock : nat -> float;
  fresh_uuid : nat -> string;
  local_hour : float -> Z
}.

Record World := mkWorld {
  self : Simulator;
  emitted : list Event;
  host : Host;
  tick : nat
}.

Inductive exn :=
| KeyError (key : string)
| IndexError
| ZeroDivisionError.

Inductive outcome (A : Type) :=
| Return (a : A)
| Raise (e : exn).
Arguments Return {A} a.
Arguments Raise {A} e.

Definition M (A : Type) : Type := World -> outcome A * World.

Definition ret {A} (a : A) : M A := fun w => (Return a, w).

Definition raise {A} (e : exn) : M A := fun w => (Raise e, w).

Definition bind {A B} (c : M A) (k : A -> M B) : M B :=
  fun w =>
    match c w with
    | (Return a, w') => k a w'
    | (Raise e, w') => (Raise e, w')
    end.

Notation "x <- c ;; k" := (bind c (fun x => k))
  (at level 100, c at next level, right associativity).
Notation "c ;; k" := (bind c (fun _ => k))
  (at level 100, right associativity).

Definition get_self : M Simulator := fun w => (Return (self w), w).

Definition put_self (s : Simulator) : M unit :=
  fun w => (Return tt,
            {| self := s; emitted := emitted w; host := host w; tick := tick w |}).

(** [socketio.emit(event, payload)] *)
Definition emit (e : Event) : M unit :=
  fun w => (Return tt,
            {| self := self w; emitted := emitted w ++ [e];
               host := host w; tick := tick w |}).

Definition next_tick {A} (read : Host -> nat -> A) : M A :=
  fun w => (Return (read (host w) (tick w)),
            {| self := self w; emitted := emitted w;
               host := host w; tick := S (tick w) |}).

(** [for x in xs: acc = body(x, acc)] *)
Fixpoint for_each {A S} (xs : list A) (body : A -> S -> M S) (acc : S) : M S :=
  match xs with
  | [] => ret acc
  | x :: rest => acc' <- body x acc ;; for_each rest body acc'
  end.

(** [threading.Thread(target=body, daemon=True).start()], run in place. *)
Definition start_thread (body : M unit) : M unit :=
  fun w => (Return tt, (body w).2).

(** [time.time()] *)
Definition time_time : M float := next_tick wall_clock.

(** [time.sleep(seconds)] *)
Definition time_sleep (seconds : float) : M unit := ret tt.

(** [random.random()]: a multiple of [2^-53] in the interval [0, 1). *)
Definition random_random : M float :=
  r <- next_tick rand_source ;;
  ret (Z_to_float (Z.of_N r mod 2 ^ 53) / 9007199254740992)%float.

(** [random.uniform(a, b)] *)
Definition random_uniform (a b : float) : M float :=
  r <- random_random ;;
  ret (a + (b - a) * r)%float.

(** [random.choice(seq)]: raises [IndexError] on an empty sequence. *)
Definition random_choice {A} (seq : list A) : M A :=
  r <- next_tick rand_source ;;
  match seq !! (N.to_nat r mod length seq)%nat with
  | Some a => ret a
  | None => raise IndexError
  end.

(** [str(uuid.uuid4())] *)
Definition uuid4 : M string := next_tick fresh_uuid.

(** [a / b] on Python ints, as CPython's [long_true_divide] goes about it:
    a zero divisor raises, a zero dividend gives a signed zero, and
    operands that fit a double are converted and divided as doubles. *)
Definition int_truediv (a b : Z) : M float :=
  if b =? 0 then raise ZeroDivisionError
  else if a =? 0 then ret (if b <? 0 then (-0)%float else 0%float)
  else ret (Z_to_float a / Z_to_float b)%float.

(** ** Initialisation *)

Definition set_devices (ds : list (string * Device)) (s : Simulator)
  : Simulator :=
  {| devices := ds; users := users s; network_graph := network_graph s;
     activity_stats := activity_stats s; attack_sessions := attack_sessions s |}.

Definition set_users (us : list (string * User)) (s : Simulator) : Simulator :=
  {| devices := devices s; users := us; network_graph := network_graph s;
     activity_stats := activity_stats s; attack_sessions := attack_sessions s |}.

Definition set_network_graph (g : list (string * list string)) (s : Simulator)
  : Simulator :=
  {| devices := devices s; users := users s; network_graph := g;
     activity_stats := activity_stats s; attack_sessions := attack_sessions s |}.

Definition set_activity_stats (st : list (string * Z)) (s : Simulator)
  : Simulator :=
  {| devices := devices s; users := users s; network_graph := network_graph s;
     activity_stats := st; attack_sessions := attack_sessions s |}.

Definition set_attack_sessions (a : list (string * list (string * string)))
  (s : Simulator) : Simulator :=
  {| devices := devices s; users := users s; network_graph := network_graph s;
     activity_stats := activity_stats s; attack_sessions := a |}.

Definition zero_stats : list (string * Z) :=
  [ ("allowed", 0); ("denied", 0); ("challenged", 0); ("total_requests", 0) ].

Definition devices_config : list (string * DeviceType * string * float * Z * Z) :=
  [ ("firewall-01", ROUTER, "192.168.1.1", 0.95%float, 400, 100);
    ("dc-server-01", SERVER, "192.168.1.10", 0.9%float, 300, 200);
    ("db-server-01", SERVER, "192.168.1.11", 0.85%float, 500, 200);
    ("ws-finance-01", WORKSTATION, "192.168.2.10", 0.8%float, 200, 300);
    ("ws-finance-02", WORKSTATION, "192.168.2.11", 0.9%float, 350, 350);
    ("ws-hr-01", WORKSTATION, "192.168.2.20", 0.7%float, 450, 350);
    ("ws-it-01", WORKSTATION, "192.168.2.30", 0.95%float, 600, 300);
    ("mobile-ceo", MOBILE, "10.0.1.5", 0.8%float, 100, 400);
    ("printer-01", IOT, "192.168.3.10", 0.4%float, 700, 400) ].

Definition connections : list (string * string) :=
  [ ("firewall-01", "dc-server-01");
    ("firewall-01", "db-server-01");
    ("firewall-01", "ws-finance-01");
    ("firewall-01", "ws-finance-02");
    ("firewall-01", "ws-hr-01");
    ("firewall-01", "ws-it-01");
    ("firewall-01", "mobile-ceo");
    ("firewall-01", "printer-01");
    ("dc-server-01", "db-server-01");
    ("ws-finance-01", "ws-finance-02") ].

Definition users_config : list (string * string * string * float * string) :=
  [ ("alice.finance", "Alice Johnson", "CFO", 0.3%float, "finance");
    ("bob.it", "Bob Wilson", "IT Admin", 0.2%float, "it");
    ("carol.hr", "Carol Brown", "HR Manager", 0.4%float, "hr");
    ("dave.sales", "Dave Miller", "Sales Rep", 0.5%float, "sales");
    ("eve.contractor", "Eve Davis", "Contractor", 0.8%float, "external");
    ("frank.intern", "Frank Smith", "Intern", 0.6%float, "intern") ].

(** [self.network_graph[a].add(b)] on the [defaultdict(set)]. *)
Definition graph_add (a b : string) (g : list (string * list string))
  : list (string * list string) :=
  dict_set a (set_add b (default [] (dict_get a g))) g.

Definition _initialize_network : M unit :=
  for_each devices_config
    (fun '(device_id, device_type, ip, trust, x, y) _ =>
       s <- get_self ;;
       let device :=
         {| device_id := device_id; device_type := device_type;
            ip_address := ip; trust_score := trust;
            is_compromised := false; location := "office";
            x := x; y := y |} in
       put_self (set_devices (dict_set device_id device (devices s)) s)) tt ;;
  for_each connections
    (fun '(device1, device2) _ =>
       s <- get_self ;;
       put_self (set_network_graph
                   (graph_add device2 device1
                      (graph_add device1 device2 (network_graph s))) s)) tt ;;
  for_each users_config
    (fun '(user_id, name, role, risk, dept) _ =>
       s <- get_self ;;
       put_self (set_users
                   (dict_set user_id (mkUser user_id name role risk dept)
                      (users s)) s)) tt.

Definition __init__ : M unit :=
  put_self {| devices := []; users := []; network_graph := [];
              activity_stats := zero_stats; attack_sessions := [] |} ;;
  _initialize_network.

(** [simulator = ZeroTrustNetworkSimulator()] on a given host. *)
Definition ZeroTrustNetworkSimulator (h : Host) : World :=
  (__init__ {| self := mkSimulator [] [] [] [] []; emitted := [];
               host := h; tick := 0 |}).2.

(** ** Topology for the front end *)

Record Node := mkNode {
  node_id : string;
  node_type : string;
  node_trust_score : float;
  node_is_compromised : bool;
  node_x : Z;
  node_y : Z
}.

Record Link := mkLink { link_source : string; link_target : string }.

Record Topology := mkTopology { nodes : list Node; links : list Link }.

Definition topology_links (g : list (string * list string)) : list Link :=
  '(source, targets) ← g;
  target ← targets;
  if String.ltb source target then [mkLink source target] else [].

Definition get_network_topology : M Topology :=
  s <- get_self ;;
  let nodes :=
    (fun device =>
       {| node_id := device_id device;
          node_type := DeviceType_value (device_type device);
          node_trust_score := trust_score device;
          node_is_compromised := is_compromised device;
          node_x := x device; node_y := y device |})
      <$> dict_values (devices s) in
  ret {| nodes := nodes; links := topology_links (network_graph s) |}.

(** ** Risk evaluation *)

Record Decision := mkDecision {
  decision : AccessDecision;
  reason : string;
  result_trust_score : float;
  risk_factors : option (list (string * float))
}.

Definition sensitivity_map : list (string * float) :=
    [ ("database", 0.9%float);
      ("financial_data", 0.95%float);
      ("customer_data", 0.85%float);
      ("admin_panel", 0.9%float);
      ("hr_records", 0.8%float);
      ("source_code", 0.7%float);
      ("file_share", 0.5%float);
      ("email", 0.3%float);
      ("printer", 0.2%float);
      ("web_app", 0.4%float);
      ("reports", 0.6%float) ].

Definition _get_resource_sensitivity (resource : string) : float :=
  default 0.5%float (dict_get resource sensitivity_map).

(** [datetime.fromtimestamp(timestamp).hour] *)
Definition fromtimestamp_hour (timestamp : float) : M Z :=
  fun w => (Return (local_hour (host w) timestamp), w).

Definition _get_time_risk (timestamp : float) : M float :=
  hour <- fromtimestamp_hour timestamp ;;
  if (9 <=? hour) && (hour <=? 17) then ret 0.9%float
  else if (7 <=? hour) && (hour <? 9) || (17 <? hour) && (hour <=? 20)
       then ret 0.6%float
  else ret 0.2%float.

Definition evaluate_zerotrust_access (request : AccessRequest) : M Decision :=
  s <- get_self ;;
  match dict_get (req_user_id request) (users s),
        dict_get (req_device_id request) (devices s) with
  | Some user, Some device =>
      let user_risk := risk_score user in
      let device_trust := trust_score device in
      let resource_sensitivity := _get_resource_sensitivity (resource request) in
      time_risk <- _get_time_risk (timestamp request) ;;
      let risk_factors :=
        [ ("user_risk", user_risk * 0.3);
          ("device_risk", (1 - device_trust) * 0.3);
          ("resource_sensitivity", resource_sensitivity * 0.25);
          ("time_risk", (1 - time_risk) * 0.15) ]%float in
      let overall_risk := sum risk_factors.*2 in
      let '(decision, reason) :=
        if (overall_risk <? 0.5)%float
        then (ALLOW, "Low risk profile - access granted")
        else if (overall_risk <? 0.8)%float
        then (CHALLENGE, "Medium risk - additional verification required")
        else (DENY, "High risk profile - access denied") in
      let '(decision, reason) :=
        if is_compromised device
        then (DENY, "Device compromised - access blocked")
        else if (0.8 <? resource_sensitivity)%float
                && (device_trust <? 0.8)%float
        then (DENY, "Insufficient device trust for sensitive resource")
        else if bool_decide (department user = "external")
                && (0.5 <? resource_sensitivity)%float
        then (CHALLENGE, "External user accessing internal resource")
        else (decision, reason) in
      ret {| decision := decision; reason := reason;
             result_trust_score := (1 - overall_risk)%float;
             risk_factors := Some risk_factors |}
  | _, _ =>
      ret {| decision := DENY; reason := "Unknown user or device";
             result_trust_score := 0%float; risk_factors := None |}
  end.

(** ** Activity generator *)

Definition resources : list string :=
  [ "email"; "file_share"; "database"; "web_app"; "printer";
    "admin_panel"; "reports"; "customer_data"; "financial_data"; "hr_records" ].

(** [self.activity_stats[key] += 1] *)
Definition stats_increment (key : string) : M unit :=
  s <- get_self ;;
  match dict_get key (activity_stats s) with
  | Some n =>
      put_self (set_activity_stats (dict_set key (n + 1) (activity_stats s)) s)
  | None => raise (KeyError key)
  end.

(** One turn of the loop of [generate_activity]. *)
Definition generate_activity_step : M unit :=
  s <- get_self ;;
  let eligible_devices :=
    dict_keys (filter (fun kd => device_type kd.2 ≠ ROUTER) (devices s)) in
  user_id <- random_choice (dict_keys (users s)) ;;
  device_id <- random_choice eligible_devices ;;
  resource <- random_choice resources ;;
  now <- time_time ;;
  let request :=
    {| req_user_id := user_id; req_device_id := device_id;
       resource := resource; action := "access"; timestamp := now |} in
  decision_result <- evaluate_zerotrust_access request ;;
  let decision_type := AccessDecision_value (decision decision_result) in
  stats_increment decision_type ;;
  stats_increment "total_requests" ;;
  now_ms <- time_time ;;
  s' <- get_self ;;
  emit (activity_update user_id resource decision_type
          (reason decision_result) (now_ms * 1000)%float (activity_stats s')) ;;
  delay <- random_uniform 0.5 2 ;;
  time_sleep delay.

Definition generate_activity : M unit :=
  for_each (seq 0 10) (fun _ _ => generate_activity_step) tt.

Definition simulate_normal_activity : M (string * nat) :=
  start_thread generate_activity ;;
  ret ("Activity simulation started", 10%nat).

(** ** Attack simulation *)

(** [self.devices[target].is_compromised = True] *)
Definition mark_compromised (target : string) : M unit :=
  s <- get_self ;;
  match dict_get target (devices s) with
  | Some device =>
      put_self (set_devices
                  (dict_set target (set_is_compromised true device) (devices s))
                  s)
  | None => raise (KeyError target)
  end.

(** The f-string [f"{((total - compromised) / total) * 100:.1f}%"]. *)
Definition containment (total_devices compromised_count : nat) : M string :=
  ratio <- int_truediv (Z.of_nat total_devices - Z.of_nat compromised_count)
             (Z.of_nat total_devices) ;;
  ret (format_f1 (ratio * 100)%float +:+ "%").

Definition _simulate_traditional_attack (attack_id entry_point : string)
  : M unit :=
  let compromised : list string := [entry_point] in
  s <- get_self ;;
  let all_devices := dict_keys (devices s) in
  mark_compromised entry_point ;;
  emit (attack_progress "external" entry_point "success" "traditional"
          "Initial compromise via phishing/malware"
          compromised attack_id) ;;
  time_sleep 1.5 ;;
  compromised <-
    for_each all_devices
      (fun target (compromised : list string) =>
         if bool_decide (target ≠ entry_point) then
           delay <- random_uniform 1 2 ;;
           time_sleep delay ;;
           let compromised := set_add target compromised in
           mark_compromised target ;;
           source <- random_choice (set_discard target compromised) ;;
           emit (attack_progress source target "success" "traditional"
                   "Lateral movement via shared credentials/network access"
                   compromised attack_id) ;;
           ret compromised
         else ret compromised)
      compromised ;;
  let total_devices := length all_devices in
  let compromised_count := length compromised in
  containment_effectiveness <- containment total_devices compromised_count ;;
  duration <- time_time ;;
  emit (attack_complete "traditional" compromised_count total_devices
          containment_effectiveness attack_id entry_point duration).

(** [self.network_graph[key]]: reading a [defaultdict(set)] stores an empty
    set under a key that is missing. *)
Definition network_graph_getitem (key : string) : M (list string) :=
  s <- get_self ;;
  match dict_get key (network_graph s) with
  | Some targets => ret targets
  | None =>
      put_self (set_network_graph (dict_set key [] (network_graph s)) s) ;;
      ret []
  end.

Definition _simulate_zerotrust_attack (attack_id entry_point : string)
  : M unit :=
  let compromised : list string := [entry_point] in
  mark_compromised entry_point ;;
  emit (attack_progress "external" entry_point "success" "zerotrust"
          "Initial compromise via social engineering"
          compromised attack_id) ;;
  time_sleep 1.5 ;;
  targets <- network_graph_getitem entry_point ;;
  let neighbors := targets in
  let attempted_targets := take 4 neighbors in
  compromised <-
    for_each attempted_targets
      (fun target (compromised : list string) =>
         delay <- random_uniform 1 1.8 ;;
         time_sleep delay ;;
         let success_rate := 0.1%float in
         draw <- random_random ;;
         attempt <-
           (if (draw <? success_rate)%float then
              let compromised := set_add target compromised in
              mark_compromised target ;;
              ret (compromised, "success",
                   "Lateral movement succeeded despite zero-trust (rare vulnerability)")
            else
              ret (compromised, "blocked",
                   "Zero-trust policy blocked lateral movement - continuous verification failed")) ;;
         let '(compromised, result, reason) := attempt in
         emit (attack_progress entry_point target result "zerotrust" reason
                 compromised attack_id) ;;
         ret compromised)
      compromised ;;
  s <- get_self ;;
  let total_devices := length (devices s) in
  let compromised_count := length compromised in
  containment_effectiveness <- containment total_devices compromised_count ;;
  duration <- time_time ;;
  emit (attack_complete "zerotrust" compromised_count total_devices
          containment_effectiveness attack_id entry_point duration).

Record AttackStarted := mkAttackStarted {
  started_status : string;
  started_model : string;
  started_entry_point : string;
  started_attack_id : string
}.

Definition simulate_lateral_movement_attack (model : SecurityModel)
  : M AttackStarted :=
  s <- get_self ;;
  let devices :=
    dict_keys (filter (fun kd => device_type kd.2 ≠ ROUTER) (devices s)) in
  entry_point <- random_choice devices ;;
  attack_id <- uuid4 ;;
  start_thread
    (match model with
     | TRADITIONAL => _simulate_traditional_attack attack_id entry_point
     | ZEROTRUST => _simulate_zerotrust_attack attack_id entry_point
     end) ;;
  ret {| started_status := "Attack simulation started";
         started_model := SecurityModel_value model;
         started_entry_point := entry_point;
         started_attack_id := attack_id |}.

(** ** Reset *)

Definition reset_network : M unit :=
  s <- get_self ;;
  put_self (set_devices
              (dict_map_values (set_is_compromised false) (devices s)) s) ;;
  s <- get_self ;;
  put_self (set_activity_stats zero_stats s) ;;
  s <- get_self ;;
  put_self (set_attack_sessions [] s).

(** ** Commands

    What the delivery shell can ask of the engine, one command at a time.
    A single turn of the activity loop and the two attack bodies are
    commands of their own, so that the states between the turns of a
    background run are states of the model too. *)

Inductive command :=
| cmd_get_topology
| cmd_evaluate (request : AccessRequest)
| cmd_activity_step
| cmd_start_activity
| cmd_traditional_attack (attack_id entry_point : string)
| cmd_zerotrust_attack (attack_id entry_point : string)
| cmd_start_attack (model : SecurityModel)
| cmd_reset.

Definition discard {A} (c : M A) : M unit := c ;; ret tt.

Definition exec (c : command) : M unit :=
  match c with
  | cmd_get_topology => discard get_network_topology
  | cmd_evaluate request => discard (evaluate_zerotrust_access request)
  | cmd_activity_step => generate_activity_step
  | cmd_start_activity => discard simulate_normal_activity
  | cmd_traditional_attack attack_id entry_point =>
      _simulate_traditional_attack attack_id entry_point
  | cmd_zerotrust_attack attack_id entry_point =>
      _simulate_zerotrust_attack attack_id entry_point
  | cmd_start_attack model => discard (simulate_lateral_movement_attack model)
  | cmd_reset => reset_network
  end.

(** The worlds the engine can be in: a fresh simulator, then any commands. *)
Inductive reachable : World -> Prop :=
| reachable_init (h : Host) : reachable (ZeroTrustNetworkSimulator h)
| reachable_exec (c : command) (w : World) :
    reachable w -> reachable (exec c w).2.

(** * Vocabulary of the properties *)

(** ** The evaluator, read as a function *)

Definition hour_risk (hour : Z) : float :=
  if (9 <=? hour) && (hour <=? 17) then 0.9%float
  else if (7 <=? hour) && (hour <? 9) || (17 <? hour) && (hour <=? 20)
       then 0.6%float
  else 0.2%float.

(** The four weighted components, in the order the source lists them. *)
Definition components (user : User) (device : Device) (res : string)
  (time_risk : float) : list (string * float) :=
  [ ("user_risk", risk_score user * 0.3);
    ("device_risk", (1 - trust_score device) * 0.3);
    ("resource_sensitivity", _get_resource_sensitivity res * 0.25);
    ("time_risk", (1 - time_risk) * 0.15) ]%float.

(** The decision taken from the overall risk alone. *)
Definition baseline (overall_risk : float) : AccessDecision * string :=
  if (overall_risk <? 0.5)%float
  then (ALLOW, "Low risk profile - access granted")
  else if (overall_risk <? 0.8)%float
  then (CHALLENGE, "Medium risk - additional verification required")
  else (DENY, "High risk profile - access denied").

(** The decision after the additional checks. *)
Definition verdict (user : User) (device : Device) (res : string)
  (time_risk : float) : AccessDecision * string :=
  let resource_sensitivity := _get_resource_sensitivity res in
  if is_compromised device
  then (DENY, "Device compromised - access blocked")
  else if (0.8 <? resource_sensitivity)%float
          && (trust_score device <? 0.8)%float
  then (DENY, "Insufficient device trust for sensitive resource")
  else if bool_decide (department user = "external")
          && (0.5 <? resource_sensitivity)%float
  then (CHALLENGE, "External user accessing internal resource")
  else baseline (sum (components user device res time_risk).*2).

(** What [evaluate_zerotrust_access] returns for a known user and device. *)
Definition assess (user : User) (device : Device) (res : string)
  (time_risk : float) : Decision :=
  {| decision := (verdict user device res time_risk).1;
     reason := (verdict user device res time_risk).2;
     result_trust_score :=
       (1 - sum (components user device res time_risk).*2)%float;
     risk_factors := Some (components user device res time_risk) |}.

(** The risk factors a result carries: none when the key is absent. *)
Definition returned_risk_factors (r : Decision) : list float :=
  (default [] (risk_factors r)).*2.

(** ** Frames and invariants *)

(** [preserves R c]: running [c] takes the simulator to one related by [R],
    whether [c] returns or raises. *)
Definition preserves (R : relation Simulator) {A} (c : M A) : Prop :=
  forall w, R (self w) (self (c w).2).

(** A device with its compromised flag left out. *)
Definition static (d : Device) : Device := set_is_compromised false d.

(** The adjacency relation of the topology. *)
Definition adjacent (s : Simulator) (a b : string) : Prop :=
  exists targets, dict_get a (network_graph s) = Some targets /\ b ∈ targets.

(** [same_topology s s']: the two states differ at most in the compromised
    flags, the activity counters and the attack sessions. *)
Definition same_topology (s s' : Simulator) : Prop :=
  dict_map_values static (devices s') = dict_map_values static (devices s) /\
  users s' = users s /\
  forall a b, adjacent s' a b <-> adjacent s a b.

(** The counters add up. *)
Definition stats_consistent (st : list (string * Z)) : Prop :=
  exists a d c,
    st = [ ("allowed", a); ("denied", d); ("challenged", c);
           ("total_requests", a + d + c) ].

(** The clean state [reset_network] establishes. *)
Definition clean (s : Simulator) : Prop :=
  (forall d, d ∈ dict_values (devices s) -> is_compromised d = false) /\
  activity_stats s = zero_stats /\
  attack_sessions s = [].

(** The world after one draw, clock reading or uuid. *)
Definition advance (w : World) : World :=
  {| self := self w; emitted := emitted w; host := host w; tick := S (tick w) |}.

(** [stats_step s s']: the counters of [s'] add up if those of [s] do. *)
Definition stats_step (s s' : Simulator) : Prop :=
  stats_consistent (activity_stats s) -> stats_consistent (activity_stats s').

(** The keys of [activity_stats] that count decisions. *)
Definition decision_keys : list string := ["allowed"; "denied"; "challenged"].

(** The devices an access request or an attack may start from. *)
Definition eligible_devices (s : Simulator) : list string :=
  dict_keys (filter (fun kd => device_type kd.2 ≠ ROUTER) (devices s)).

(** ** Examples *)

(** A host for the examples: early afternoon, a clock that stands still,
    and the draws 0, 1, 2, ... *)
Definition example_host : Host :=
  {| rand_source := fun n => N.of_nat n;
     wall_clock := fun _ => 1700000000%float;
     fresh_uuid := fun n => "attack-" +:+ str (Z.of_nat n);
     local_hour := fun _ => 13 |}.

(** The simulator as [__init__] leaves it. *)
Definition initial_network : Simulator :=
  self (ZeroTrustNetworkSimulator example_host).

(** The fresh simulator on the example host. *)
Definition fresh_world : World := ZeroTrustNetworkSimulator example_host.


(** A request by a user the topology does not know. *)
Definition stranger_request : AccessRequest :=
  {| req_user_id := "mallory"; req_device_id := "ws-hr-01";
     resource := "email"; action := "access"; timestamp := 1700000000 |}.

(** The request of the worked example. *)
Definition alice_request (now : float) : AccessRequest :=
  {| req_user_id := "alice.finance"; req_device_id := "ws-finance-01";
     resource := "financial_data"; action := "access"; timestamp := now |}.

(** [s] with the trust score of device [k] set to [t]. *)
Definition with_trust_score (k : string) (t : float) (s : Simulator)
  : Simulator :=
  match dict_get k (devices s) with
  | Some d =>
      set_devices
        (dict_set k
           {| device_id := device_id d; device_type := device_type d;
              ip_address := ip_address d; trust_score := t;
              is_compromised := is_compromised d;
              location := location d; x := x d; y := y d |}
           (devices s)) s
  | None => s
  end.

(** The fresh simulator of host [h], with [ws-finance-01] trusted at 0.5. *)
Definition low_trust_world (h : Host) : World :=
  {| self := with_trust_score "ws-finance-01" 0.5
               (self (ZeroTrustNetworkSimulator h));
     emitted := []; host := h; tick := 0 |}.

(** The tolerance of the worked example: [1e-15]. *)
Definition tolerance : Q := (1 # 1000000000000000)%Q.

(** The overall risk from the four inputs of the evaluator. *)
Definition overall_risk_of (user_risk device_trust resource_sensitivity
  time_risk : float) : float :=
  sum [ user_risk * 0.3; (1 - device_trust) * 0.3;
        resource_sensitivity * 0.25; (1 - time_risk) * 0.15 ]%float.






(** ** The graph *)

(** [edge g a b]: [b] is in the set stored under [a]. *)
Definition edge (g : list (string * list string)) (a b : string) : Prop :=
  exists targets, dict_get a g = Some targets /\ b ∈ targets.

(** A graph as [_initialize_network] builds them: a dict of sets (no key
    and no member twice), symmetric, without self-loops. *)
Definition graph_ok (g : list (string * list string)) : Prop :=
  NoDup (dict_keys g) /\
  (forall a targets, (a, targets) ∈ g -> NoDup targets) /\
  (forall a b, edge g a b -> edge g b a) /\
  (forall a, ~ edge g a a).

(** The same, as a check that computes. *)
Definition graph_ok_b (g : list (string * list string)) : bool :=
  bool_decide (NoDup (dict_keys g)) &&
  forallb
    (fun '(a, targets) =>
       bool_decide (NoDup targets) &&
       forallb
         (fun b => bool_decide (a ∈ default [] (dict_get b g))
                   && negb (String.eqb a b))
         targets)
    g.

(** [graph_step s s']: the graph of [s'] is well formed if that of [s] is. *)
Definition graph_step (s s' : Simulator) : Prop :=
  graph_ok (network_graph s) -> graph_ok (network_graph s').

(** ** The attack loops *)

(** One attempt of the zero-trust attack: the body of its loop. *)
Definition zerotrust_attempt (attack_id entry_point target : string)
  (compromised : list string) : M (list string) :=
  delay <- random_uniform 1 1.8 ;;
  time_sleep delay ;;
  let success_rate := 0.1%float in
  draw <- random_random ;;
  attempt <-
    (if (draw <? success_rate)%float then
       let compromised := set_add target compromised in
       mark_compromised target ;;
       ret (compromised, "success",
            "Lateral movement succeeded despite zero-trust (rare vulnerability)")
     else
       ret (compromised, "blocked",
            "Zero-trust policy blocked lateral movement - continuous verification failed")) ;;
  let '(compromised, result, reason) := attempt in
  emit (attack_progress entry_point target result "zerotrust" reason
          compromised attack_id) ;;
  ret compromised.

(** One step of the traditional attack: the body of its loop. *)
Definition traditional_spread (attack_id entry_point target : string)
  (compromised : list string) : M (list string) :=
  if bool_decide (target ≠ entry_point) then
    delay <- random_uniform 1 2 ;;
    time_sleep delay ;;
    let compromised := set_add target compromised in
    mark_compromised target ;;
    source <- random_choice (set_discard target compromised) ;;
    emit (attack_progress source target "success" "traditional"
            "Lateral movement via shared credentials/network access"
            compromised attack_id) ;;
    ret compromised
  else ret compromised.

(** [flagged marked before after]: [after] is [before] with the compromised
    flag set on the devices named in [marked], and nothing else touched. *)
Definition flagged (marked : list string) (before after : list (string * Device))
  : Prop :=
  forall k,
    dict_get k after =
      if decide (k ∈ marked) then set_is_compromised true <$> dict_get k before
      else dict_get k before.

(** Every device has an entry in the graph. *)
Definition devices_in_graph (s : Simulator) : Prop :=
  forall k, k ∈ dict_keys (devices s) -> k ∈ dict_keys (network_graph s).

(** [graph_kept s s']: from a state where every device has an entry in the
    graph, the graph dict is left as it is, and the devices keep their
    keys. *)
Definition graph_kept (s s' : Simulator) : Prop :=
  devices_in_graph s ->
  network_graph s' = network_graph s /\
  dict_keys (devices s') = dict_keys (devices s).

(** * Properties *)

(** The initial network is a large closed term: proofs compute with it and
    never unfold it by hand. *)
#[global] Opaque ZeroTrustNetworkSimulator initial_network.

(** ** Dicts and sets *)

Section containers.
Context {V : Type}.
Implicit Types (k : string) (v : V) (d : list (string * V)).

Lemma dict_get_set_eq k v d : dict_get k (dict_set k v d) = Some v.
Proof.
  induction d as [|[k' v'] d IH]; cbn; repeat case_decide; cbn;
    repeat case_decide; try done.
Qed.

Lemma dict_get_set_ne k k' v d :
  k ≠ k' -> dict_get k' (dict_set k v d) = dict_get k' d.
Proof.
  intros Hne. induction d as [|[k0 v0] d IH]; cbn; repeat case_decide; cbn;
    repeat case_decide; simplify_eq; try done.
Qed.

Lemma dict_get_Some_elem k v d : dict_get k d = Some v -> (k, v) ∈ d.
Proof.
  induction d as [|[k' v'] d IH]; cbn; [done|].
  case_decide; [intros [= ->]; subst; left|right; auto].
Qed.

Lemma dict_get_None k d : dict_get k d = None <-> k ∉ dict_keys d.
Proof.
  unfold dict_keys. induction d as [|[k' v'] d IH]; cbn.
  - split; [intros _; apply not_elem_of_nil|done].
  - rewrite not_elem_of_cons. case_decide as Hk; subst.
    + split; [done|]. intros [? _]. done.
    + rewrite IH. split; [|tauto]. intros ?. split; [|done].
      intros ->. by apply Hk.
Qed.

Lemma dict_get_is_Some k d : is_Some (dict_get k d) <-> k ∈ dict_keys d.
Proof.
  rewrite <- not_eq_None_Some, dict_get_None.
  split; [apply dec_stable|tauto].
Qed.

Lemma dict_get_elem_NoDup k v d :
  NoDup (dict_keys d) -> (k, v) ∈ d -> dict_get k d = Some v.
Proof.
  unfold dict_keys. induction d as [|[k' v'] d IH]; cbn.
  - intros _ H. by apply elem_of_nil in H.
  - intros [Hk' Hd]%NoDup_cons [[= -> ->]|Hin]%elem_of_cons.
    + by rewrite decide_True.
    + rewrite decide_False; [by apply IH|].
      intros ->. apply Hk'. apply list_elem_of_fmap. by exists (k, v).
Qed.

Lemma dict_keys_set_present k v v0 d :
  dict_get k d = Some v0 -> dict_keys (dict_set k v d) = dict_keys d.
Proof.
  unfold dict_keys. induction d as [|[k' v'] d IH]; cbn; [done|].
  case_decide; subst; cbn; [done|]. intros Hget. by rewrite IH.
Qed.

Lemma dict_get_map_values {W} (f : V -> W) k d :
  dict_get k (dict_map_values f d) = f <$> dict_get k d.
Proof.
  unfold dict_map_values. induction d as [|[k' v'] d IH]; cbn; [done|].
  by case_decide.
Qed.

Lemma dict_keys_map_values {W} (f : V -> W) d :
  dict_keys (dict_map_values f d) = dict_keys d.
Proof.
  unfold dict_keys, dict_map_values. rewrite <- list_fmap_compose.
  by apply list_fmap_ext.
Qed.

(** Overwriting a value with one that [f] cannot tell from the old one is
    invisible through [f]. *)
Lemma dict_map_values_set {W} (f : V -> W) k v v0 d :
  dict_get k d = Some v0 -> f v = f v0 ->
  dict_map_values f (dict_set k v d) = dict_map_values f d.
Proof.
  unfold dict_map_values. intros Hget Hf.
  induction d as [|[k' v'] d IH]; cbn in *; [done|].
  case_decide; subst; cbn.
  - injection Hget as ->. by rewrite Hf.
  - by rewrite IH.
Qed.

Lemma dict_map_values_compose {W X} (f : V -> W) (g : W -> X) d :
  dict_map_values g (dict_map_values f d) = dict_map_values (g ∘ f) d.
Proof.
  unfold dict_map_values. rewrite <- list_fmap_compose.
  by apply list_fmap_ext.
Qed.

Lemma dict_map_values_ext {W} (f g : V -> W) d :
  (forall k v, (k, v) ∈ d -> f v = g v) ->
  dict_map_values f d = dict_map_values g d.
Proof.
  unfold dict_map_values. intros H. apply list_fmap_ext.
  intros i [k v] Hi. cbn. f_equal. eapply H, list_elem_of_lookup_2, Hi.
Qed.
End containers.

Lemma elem_of_set_add x y s : y ∈ set_add x s <-> y = x \/ y ∈ s.
Proof.
  unfold set_add. case_decide.
  - split; [auto|]. by intros [->|?].
  - rewrite elem_of_app, list_elem_of_singleton. tauto.
Qed.

Lemma NoDup_set_add x s : NoDup s -> NoDup (set_add x s).
Proof.
  unfold set_add. intros Hs. case_decide; [done|].
  apply NoDup_app. split; [done|]. split; [|apply NoDup_singleton].
  intros y Hy ->%list_elem_of_singleton. done.
Qed.

Lemma length_set_add x s :
  (length (set_add x s) <= S (length s))%nat.
Proof.
  unfold set_add. case_decide; [lia|]. rewrite length_app. cbn. lia.
Qed.

Lemma elem_of_set_discard x y s : y ∈ set_discard x s <-> y ∈ s /\ y ≠ x.
Proof. unfold set_discard. rewrite list_elem_of_filter. tauto. Qed.

(** ** Running the monad *)

Lemma bind_Return {A B} (c : M A) (k : A -> M B) w a w' :
  c w = (Return a, w') -> (x <- c ;; k x) w = k a w'.
Proof. unfold bind. by intros ->. Qed.

Lemma bind_Raise {A B} (c : M A) (k : A -> M B) w e w' :
  c w = (Raise e, w') -> (x <- c ;; k x) w = (Raise e, w').
Proof. unfold bind. by intros ->. Qed.

(** ** The evaluator *)

Lemma _get_time_risk_run ts w :
  _get_time_risk ts w = (Return (hour_risk (local_hour (host w) ts)), w).
Proof.
  unfold _get_time_risk, hour_risk, bind, fromtimestamp_hour.
  by repeat case_match.
Qed.

Lemma evaluate_known w request user device :
  dict_get (req_user_id request) (users (self w)) = Some user ->
  dict_get (req_device_id request) (devices (self w)) = Some device ->
  evaluate_zerotrust_access request w =
    (Return (assess user device (resource request)
               (hour_risk (local_hour (host w) (timestamp request)))), w).
Proof.
  intros Hu Hd. unfold evaluate_zerotrust_access.
  erewrite bind_Return by reflexivity.
  rewrite Hu, Hd.
  erewrite bind_Return by apply _get_time_risk_run.
  unfold assess, verdict, baseline, components, ret.
  repeat (case_match; simplify_eq); reflexivity.
Qed.

Lemma evaluate_unknown w request :
  dict_get (req_user_id request) (users (self w)) = None \/
  dict_get (req_device_id request) (devices (self w)) = None ->
  evaluate_zerotrust_access request w =
    (Return {| decision := DENY; reason := "Unknown user or device";
               result_trust_score := 0%float; risk_factors := None |}, w).
Proof.
  intros H. unfold evaluate_zerotrust_access.
  erewrite bind_Return by reflexivity.
  destruct H as [-> | ->]; [done|]. by case_match.
Qed.

(** The evaluator never raises and never writes. *)
Lemma evaluate_total w request :
  exists r, evaluate_zerotrust_access request w = (Return r, w).
Proof.
  destruct (dict_get (req_user_id request) (users (self w))) as [u|] eqn:Hu;
    [destruct (dict_get (req_device_id request) (devices (self w))) as [d|] eqn:Hd|];
    eexists.
  - by apply evaluate_known.
  - apply evaluate_unknown; auto.
  - apply evaluate_unknown; auto.
Qed.

(** ** What a command may change *)

Section preservation.
Context (R : relation Simulator) `{!PreOrder R}.

Lemma preserves_ret {A} (a : A) : preserves R (ret a).
Proof. intros w. reflexivity. Qed.

Lemma preserves_raise {A} (e : exn) : preserves R (@raise A e).
Proof. intros w. reflexivity. Qed.

Lemma preserves_bind {A B} (c : M A) (k : A -> M B) :
  preserves R c -> (forall a, preserves R (k a)) -> preserves R (bind c k).
Proof.
  intros Hc Hk w. unfold bind. specialize (Hc w).
  destruct (c w) as [[a|e] w1]; [|done].
  etrans; [exact Hc|apply Hk].
Qed.

Lemma preserves_get_self : preserves R get_self.
Proof. intros w. reflexivity. Qed.

Lemma preserves_emit e : preserves R (emit e).
Proof. intros w. reflexivity. Qed.

Lemma preserves_next_tick {A} (read : Host -> nat -> A) :
  preserves R (next_tick read).
Proof. intros w. reflexivity. Qed.

Lemma preserves_start_thread (body : M unit) :
  preserves R body -> preserves R (start_thread body).
Proof. intros Hb w. apply Hb. Qed.

Lemma preserves_for_each {A S} (xs : list A) (body : A -> S -> M S) acc :
  (forall x acc, preserves R (body x acc)) ->
  preserves R (for_each xs body acc).
Proof.
  intros Hb. revert acc. induction xs as [|x xs IH]; intros acc.
  - apply preserves_ret.
  - apply preserves_bind; [apply Hb|]. intros a. apply IH.
Qed.

Lemma preserves_time_sleep d : preserves R (time_sleep d).
Proof. apply preserves_ret. Qed.

Lemma preserves_random_random : preserves R random_random.
Proof.
  apply preserves_bind; [apply preserves_next_tick|].
  intros a. apply preserves_ret.
Qed.

Lemma preserves_random_uniform a b : preserves R (random_uniform a b).
Proof.
  apply preserves_bind; [apply preserves_random_random|].
  intros r. apply preserves_ret.
Qed.

Lemma preserves_random_choice {A} (l : list A) : preserves R (random_choice l).
Proof.
  apply preserves_bind; [apply preserves_next_tick|].
  intros r. case_match; [apply preserves_ret|apply preserves_raise].
Qed.

Lemma preserves_int_truediv a b : preserves R (int_truediv a b).
Proof.
  unfold int_truediv.
  repeat case_match; first [apply preserves_ret|apply preserves_raise].
Qed.

Lemma preserves_containment n k : preserves R (containment n k).
Proof.
  apply preserves_bind; [apply preserves_int_truediv|].
  intros r. apply preserves_ret.
Qed.

Lemma preserves_evaluate request :
  preserves R (evaluate_zerotrust_access request).
Proof.
  intros w. destruct (evaluate_total w request) as [r ->]. reflexivity.
Qed.

Lemma preserves_get_network_topology : preserves R get_network_topology.
Proof.
  apply preserves_bind; [apply preserves_get_self|].
  intros s. apply preserves_ret.
Qed.
End preservation.

(** One syntax-directed step of a [preserves] proof. *)
Ltac preserves_step :=
  lazymatch goal with
  | |- PreOrder _ => exact _
  | |- preserves _ (bind _ _) => apply preserves_bind; [..|intros ?]
  | |- preserves _ (ret _) => apply preserves_ret
  | |- preserves _ (raise _) => apply preserves_raise
  | |- preserves _ get_self => apply preserves_get_self
  | |- preserves _ (emit _) => apply preserves_emit
  | |- preserves _ (next_tick _) => apply preserves_next_tick
  | |- preserves _ time_time => apply preserves_next_tick
  | |- preserves _ uuid4 => apply preserves_next_tick
  | |- preserves _ (time_sleep _) => apply preserves_time_sleep
  | |- preserves _ random_random => apply preserves_random_random
  | |- preserves _ (random_uniform _ _) => apply preserves_random_uniform
  | |- preserves _ (random_choice _) => apply preserves_random_choice
  | |- preserves _ (containment _ _) => apply preserves_containment
  | |- preserves _ (evaluate_zerotrust_access _) => apply preserves_evaluate
  | |- preserves _ get_network_topology => apply preserves_get_network_topology
  | |- preserves _ (for_each _ _ _) => apply preserves_for_each; [..|intros ? ?]
  | |- preserves _ (start_thread _) => apply preserves_start_thread
  | |- preserves _ (if _ then _ else _) => case_match
  | |- preserves _ (match _ with _ => _ end) => case_match
  | |- _ => solve [auto]
  end.

Section preserved_by_commands.
Context (R : relation Simulator) `{!PreOrder R}.

(** The four writes to [self] decide everything else. *)
Hypothesis R_mark : forall target, preserves R (mark_compromised target).
Hypothesis R_stats : forall key, preserves R (stats_increment key).
Hypothesis R_graph : forall key, preserves R (network_graph_getitem key).
Hypothesis R_reset : preserves R reset_network.

Lemma preserves_generate_activity_step : preserves R generate_activity_step.
Proof. unfold generate_activity_step. repeat preserves_step. Qed.

Lemma preserves_generate_activity : preserves R generate_activity.
Proof.
  unfold generate_activity. repeat preserves_step.
  apply preserves_generate_activity_step.
Qed.

Lemma preserves_traditional_attack attack_id entry_point :
  preserves R (_simulate_traditional_attack attack_id entry_point).
Proof. unfold _simulate_traditional_attack. repeat preserves_step. Qed.

Lemma preserves_zerotrust_attack attack_id entry_point :
  preserves R (_simulate_zerotrust_attack attack_id entry_point).
Proof. unfold _simulate_zerotrust_attack. repeat preserves_step. Qed.

Lemma preserves_start_attack model :
  preserves R (simulate_lateral_movement_attack model).
Proof.
  unfold simulate_lateral_movement_attack. repeat preserves_step.
  - apply preserves_zerotrust_attack.
  - apply preserves_traditional_attack.
Qed.

Lemma preserves_exec c : preserves R (exec c).
Proof.
  destruct c; unfold exec, discard, simulate_normal_activity;
    repeat preserves_step;
    auto using preserves_generate_activity_step, preserves_generate_activity,
      preserves_traditional_attack, preserves_zerotrust_attack,
      preserves_start_attack.
Qed.
End preserved_by_commands.

(** ** The writes to [self] *)

Lemma set_is_compromised_idem b b' d :
  set_is_compromised b (set_is_compromised b' d) = set_is_compromised b d.
Proof. by destruct d. Qed.

Lemma set_is_compromised_id d :
  set_is_compromised (is_compromised d) d = d.
Proof. by destruct d. Qed.

Lemma mark_compromised_run target w :
  match dict_get target (devices (self w)) with
  | Some device =>
      mark_compromised target w =
        (Return tt,
         {| self := set_devices
                      (dict_set target (set_is_compromised true device)
                         (devices (self w))) (self w);
            emitted := emitted w; host := host w; tick := tick w |})
  | None => mark_compromised target w = (Raise (KeyError target), w)
  end.
Proof.
  unfold mark_compromised. erewrite bind_Return by reflexivity.
  by destruct (dict_get target (devices (self w))).
Qed.

Lemma stats_increment_run key w :
  match dict_get key (activity_stats (self w)) with
  | Some n =>
      stats_increment key w =
        (Return tt,
         {| self := set_activity_stats
                      (dict_set key (n + 1) (activity_stats (self w))) (self w);
            emitted := emitted w; host := host w; tick := tick w |})
  | None => stats_increment key w = (Raise (KeyError key), w)
  end.
Proof.
  unfold stats_increment. erewrite bind_Return by reflexivity.
  by destruct (dict_get key (activity_stats (self w))).
Qed.

Lemma network_graph_getitem_run key w :
  match dict_get key (network_graph (self w)) with
  | Some targets => network_graph_getitem key w = (Return targets, w)
  | None =>
      network_graph_getitem key w =
        (Return [],
         {| self := set_network_graph (dict_set key [] (network_graph (self w)))
                      (self w);
            emitted := emitted w; host := host w; tick := tick w |})
  end.
Proof.
  unfold network_graph_getitem. erewrite bind_Return by reflexivity.
  by destruct (dict_get key (network_graph (self w))).
Qed.

Lemma reset_network_run w :
  reset_network w =
    (Return tt,
     {| self := {| devices := dict_map_values (set_is_compromised false)
                                (devices (self w));
                   users := users (self w);
                   network_graph := network_graph (self w);
                   activity_stats := zero_stats;
                   attack_sessions := [] |};
        emitted := emitted w; host := host w; tick := tick w |}).
Proof. reflexivity. Qed.

(** ** Reset *)

Lemma reset_network_clean w : clean (self (reset_network w).2).
Proof.
  rewrite reset_network_run. split; [|done].
  intros d. cbn. unfold dict_values, dict_map_values.
  rewrite <- list_fmap_compose.
  intros (kd & -> & _)%list_elem_of_fmap. done.
Qed.

Lemma reset_network_on_clean w :
  clean (self w) -> self (reset_network w).2 = self w.
Proof.
  intros (Hflags & Hstats & Hsessions). rewrite reset_network_run. cbn.
  destruct (self w) as [ds us g st ss]; cbn in *. subst. f_equal.
  unfold dict_map_values. rewrite <- (list_fmap_id ds) at 2.
  apply list_fmap_ext. intros i [k d] Hi. cbn. f_equal.
  rewrite <- (Hflags d); [apply set_is_compromised_id|].
  unfold dict_values. apply list_elem_of_fmap. exists (k, d).
  split; [done|]. by eapply list_elem_of_lookup_2.
Qed.

(** C7: reset establishes the clean state from any state, whatever ran
    before: every device's compromised flag is false, the four counters are
    zero and no attack session is left; nothing is raised.  A second reset
    changes nothing (reset after reset is reset), and a reset of a clean
    state leaves the simulator as it was. *)
Theorem reset_restores_clean_state (w : World) :
  let w' := (reset_network w).2 in
  (reset_network w).1 = Return tt /\
  (forall d, d ∈ dict_values (devices (self w')) -> is_compromised d = false) /\
  activity_stats (self w') =
    [ ("allowed", 0); ("denied", 0); ("challenged", 0);
      ("total_requests", 0) ] /\
  attack_sessions (self w') = [] /\
  reset_network w' = (Return tt, w') /\
  (clean (self w) -> self w' = self w) /\
  dict_keys (devices (self w')) = dict_keys (devices (self w)).
Proof.
  cbv zeta. split; [done|]. destruct (reset_network_clean w) as (Hf & Hs & Ha).
  repeat split; try done.
  - set (w' := (reset_network w).2) in *.
    pose proof (reset_network_on_clean w' (reset_network_clean w)) as Hself.
    rewrite (reset_network_run w') in Hself |- *. cbn [snd self] in Hself.
    f_equal. rewrite Hself. by destruct w'.
  - apply reset_network_on_clean.
  - rewrite reset_network_run. cbn. apply dict_keys_map_values.
Qed.

(** ** The frame of every command *)

#[local] Instance same_topology_preorder : PreOrder same_topology.
Proof.
  split.
  - intros s. by repeat split.
  - intros s1 s2 s3 (Hd1 & Hu1 & Ha1) (Hd2 & Hu2 & Ha2). repeat split.
    + congruence.
    + congruence.
    + intros H. apply Ha1, Ha2, H.
    + intros H. apply Ha2, Ha1, H.
Qed.

Lemma static_set_is_compromised b d : static (set_is_compromised b d) = static d.
Proof. apply set_is_compromised_idem. Qed.

Lemma mark_compromised_same_topology target :
  preserves same_topology (mark_compromised target).
Proof.
  intros w. pose proof (mark_compromised_run target w) as H.
  destruct (dict_get target (devices (self w))) as [d|] eqn:Hd; rewrite H;
    [|reflexivity].
  repeat split; cbn; try done.
  eapply dict_map_values_set; [exact Hd|]. apply static_set_is_compromised.
Qed.

Lemma stats_increment_same_topology key :
  preserves same_topology (stats_increment key).
Proof.
  intros w. pose proof (stats_increment_run key w) as H.
  destruct (dict_get key (activity_stats (self w))); rewrite H; [|reflexivity].
  by repeat split.
Qed.

Lemma network_graph_getitem_same_topology key :
  preserves same_topology (network_graph_getitem key).
Proof.
  intros w. pose proof (network_graph_getitem_run key w) as H.
  destruct (dict_get key (network_graph (self w))) eqn:Hk; rewrite H;
    [reflexivity|].
  repeat split; cbn; try done; unfold adjacent; cbn.
  - intros (targets & Hl & Hb).
    destruct (decide (key = a)) as [->|Hne].
    + rewrite dict_get_set_eq in Hl. injection Hl as <-.
      by apply elem_of_nil in Hb.
    + rewrite dict_get_set_ne in Hl by done. eauto.
  - intros (targets & Hl & Hb). exists targets. split; [|done].
    rewrite dict_get_set_ne; [done|]. congruence.
Qed.

Lemma reset_network_same_topology : preserves same_topology reset_network.
Proof.
  intros w. rewrite reset_network_run.
  split; [|split; [reflexivity|intros a b; reflexivity]].
  cbn [snd self devices].
  rewrite dict_map_values_compose. apply dict_map_values_ext.
  intros k d _. apply static_set_is_compromised.
Qed.

Lemma exec_same_topology c : preserves same_topology (exec c).
Proof.
  apply preserves_exec; first [exact _ | intros ?];
    auto using mark_compromised_same_topology, stats_increment_same_topology,
      network_graph_getitem_same_topology, reset_network_same_topology.
Qed.

Lemma same_topology_device s s' k d' :
  same_topology s s' -> dict_get k (devices s') = Some d' ->
  exists d, dict_get k (devices s) = Some d /\ static d' = static d.
Proof.
  intros (Hd & _) Hk.
  assert (dict_get k (dict_map_values static (devices s')) = Some (static d'))
    as H by by rewrite dict_get_map_values, Hk.
  rewrite Hd, dict_get_map_values in H.
  destruct (dict_get k (devices s)) as [d|]; [|done]. exists d.
  split; [done|]. cbn in H. congruence.
Qed.

Lemma static_fields d d' :
  static d' = static d ->
  device_id d' = device_id d /\ device_type d' = device_type d /\
  ip_address d' = ip_address d /\ trust_score d' = trust_score d /\
  location d' = location d /\ x d' = x d /\ y d' = y d.
Proof. destruct d, d'. unfold static. cbn. intros [=]. by subst. Qed.

(** ** Reachable worlds *)

Lemma self_initial h : self (ZeroTrustNetworkSimulator h) = initial_network.
Proof. vm_compute. reflexivity. Qed.

Lemma reachable_same_topology w :
  reachable w -> same_topology initial_network (self w).
Proof.
  induction 1 as [h|c w _ IH].
  - rewrite self_initial. reflexivity.
  - etrans; [exact IH|]. apply exec_same_topology.
Qed.

Lemma reachable_users w : reachable w -> users (self w) = users initial_network.
Proof. intros H. apply (reachable_same_topology w H). Qed.

Lemma reachable_device w k d0 :
  reachable w -> dict_get k (devices initial_network) = Some d0 ->
  exists d, dict_get k (devices (self w)) = Some d /\ static d = static d0.
Proof.
  intros Hw Hk. destruct (reachable_same_topology w Hw) as (Hd & _).
  assert (dict_get k (dict_map_values static (devices (self w)))
          = Some (static d0)) as H
    by by rewrite Hd, dict_get_map_values, Hk.
  rewrite dict_get_map_values in H.
  destruct (dict_get k (devices (self w))) as [d|]; [|done]. exists d.
  split; [done|]. cbn in H. congruence.
Qed.

Lemma reachable_users_nonempty w :
  reachable w -> dict_keys (users (self w)) ≠ [].
Proof. intros H. rewrite (reachable_users w H). vm_compute. discriminate. Qed.

Lemma reachable_eligible_nonempty w :
  reachable w -> eligible_devices (self w) ≠ [].
Proof.
  intros Hw.
  destruct (reachable_device w "ws-hr-01"
              (mkDevice "ws-hr-01" WORKSTATION "192.168.2.20" 0.7 false
                 "office" 450 350) Hw) as (d & Hd & Hs);
    [vm_compute; reflexivity|].
  apply static_fields in Hs as (_ & Hty & _).
  assert ("ws-hr-01" ∈ eligible_devices (self w)) as Hin.
  { unfold eligible_devices, dict_keys. apply list_elem_of_fmap.
    exists ("ws-hr-01", d). split; [done|].
    apply list_elem_of_filter. split; [cbn; by rewrite Hty|].
    by apply dict_get_Some_elem. }
  intros Heq. rewrite Heq in Hin. by apply not_elem_of_nil in Hin.
Qed.

(** ** The host's services *)

Lemma random_choice_run {A} (l : list A) w :
  l ≠ [] -> exists a, a ∈ l /\ random_choice l w = (Return a, advance w).
Proof.
  intros Hl. unfold random_choice. erewrite bind_Return by reflexivity.
  destruct (l !! (N.to_nat (rand_source (host w) (tick w)) mod length l)%nat)
    as [a|] eqn:Ha.
  - exists a. split; [|done]. by eapply list_elem_of_lookup_2.
  - apply lookup_ge_None in Ha. destruct l as [|a0 l]; [done|].
    pose proof (Nat.mod_upper_bound
                  (N.to_nat (rand_source (host w) (tick w)))
                  (length (a0 :: l))) as Hlt.
    cbn [length] in *. lia.
Qed.

Lemma time_time_run w :
  time_time w = (Return (wall_clock (host w) (tick w)), advance w).
Proof. reflexivity. Qed.

Lemma random_random_run w :
  exists r, random_random w = (Return r, advance w).
Proof. by eexists. Qed.

Lemma random_uniform_run a b w :
  exists r, random_uniform a b w = (Return r, advance w).
Proof. by eexists. Qed.

Lemma emit_run e w :
  emit e w = (Return tt, {| self := self w; emitted := emitted w ++ [e];
                            host := host w; tick := tick w |}).
Proof. reflexivity. Qed.

(** ** The activity counters *)

#[local] Instance stats_step_preorder : PreOrder stats_step.
Proof. split; unfold stats_step; [intros s | intros s1 s2 s3]; tauto. Qed.

Lemma zero_stats_consistent : stats_consistent zero_stats.
Proof. by exists 0, 0, 0. Qed.

Lemma AccessDecision_value_key d : AccessDecision_value d ∈ decision_keys.
Proof. destruct d; unfold decision_keys; cbn; repeat constructor. Qed.

(** Bumping one decision counter and then the total: neither increment
    raises, and the counters still add up. *)
Lemma increments_run key w :
  key ∈ decision_keys ->
  stats_consistent (activity_stats (self w)) ->
  exists n t,
    dict_get key (activity_stats (self w)) = Some n /\
    dict_get "total_requests" (activity_stats (self w)) = Some t /\
    let w1 :=
      {| self := set_activity_stats
                   (dict_set key (n + 1) (activity_stats (self w))) (self w);
         emitted := emitted w; host := host w; tick := tick w |} in
    let w2 :=
      {| self := set_activity_stats
                   (dict_set "total_requests" (t + 1)
                      (dict_set key (n + 1) (activity_stats (self w))))
                   (self w);
         emitted := emitted w; host := host w; tick := tick w |} in
    stats_increment key w = (Return tt, w1) /\
    stats_increment "total_requests" w1 = (Return tt, w2) /\
    stats_consistent (activity_stats (self w2)).
Proof.
  intros Hkey (a & d & c & Hst).
  assert (exists n, dict_get key (activity_stats (self w)) = Some n /\
            dict_get "total_requests"
              (dict_set key (n + 1) (activity_stats (self w)))
              = Some (a + d + c) /\
            stats_consistent
              (dict_set "total_requests" (a + d + c + 1)
                 (dict_set key (n + 1) (activity_stats (self w)))))
    as (n & Hn & Ht' & Hcons).
  { rewrite Hst. unfold decision_keys in Hkey.
    apply elem_of_cons in Hkey as [->|Hkey];
      [|apply elem_of_cons in Hkey as [->|Hkey];
        [|apply list_elem_of_singleton in Hkey as ->]].
    - exists a. split; [done|]. split; [done|]. exists (a + 1), d, c.
      cbn. by replace (a + 1 + d + c) with (a + d + c + 1) by lia.
    - exists d. split; [done|]. split; [done|]. exists a, (d + 1), c.
      cbn. by replace (a + (d + 1) + c) with (a + d + c + 1) by lia.
    - exists c. split; [done|]. split; [done|]. exists a, d, (c + 1).
      cbn. by replace (a + d + (c + 1)) with (a + d + c + 1) by lia. }
  exists n, (a + d + c). split; [done|].
  split; [by rewrite Hst|]. cbv zeta.
  pose proof (stats_increment_run key w) as H1. rewrite Hn in H1.
  split; [exact H1|]. split; [|exact Hcons].
  match goal with |- stats_increment _ ?w1 = _ =>
    pose proof (stats_increment_run "total_requests" w1) as H2 end.
  cbn [self activity_stats set_activity_stats] in H2.
  rewrite Ht' in H2. exact H2.
Qed.

Lemma increments_stats_step key (k : M unit) :
  key ∈ decision_keys ->
  preserves stats_step k ->
  preserves stats_step
    (stats_increment key ;; stats_increment "total_requests" ;; k).
Proof.
  intros Hkey Hk w Hcons.
  destruct (increments_run key w Hkey Hcons)
    as (n & t & Hn & Ht & H1 & H2 & Hc').
  erewrite bind_Return by exact H1.
  erewrite bind_Return by exact H2.
  by apply Hk.
Qed.

Lemma mark_compromised_stats_step target :
  preserves stats_step (mark_compromised target).
Proof.
  intros w. pose proof (mark_compromised_run target w) as H.
  destruct (dict_get target (devices (self w))); rewrite H; by intros ?.
Qed.

Lemma network_graph_getitem_stats_step key :
  preserves stats_step (network_graph_getitem key).
Proof.
  intros w. pose proof (network_graph_getitem_run key w) as H.
  destruct (dict_get key (network_graph (self w))); rewrite H; by intros ?.
Qed.

Lemma reset_network_stats_step : preserves stats_step reset_network.
Proof. intros w _. rewrite reset_network_run. apply zero_stats_consistent. Qed.

Lemma generate_activity_step_stats_step :
  preserves stats_step generate_activity_step.
Proof.
  unfold generate_activity_step.
  do 6 (apply preserves_bind; [exact _|repeat preserves_step|intros ?]).
  apply increments_stats_step; [apply AccessDecision_value_key|].
  repeat preserves_step.
Qed.

Lemma exec_stats_step c : preserves stats_step (exec c).
Proof.
  destruct c; unfold exec, discard, simulate_normal_activity.
  - repeat preserves_step.
  - repeat preserves_step.
  - apply generate_activity_step_stats_step.
  - repeat preserves_step. unfold generate_activity. repeat preserves_step.
    apply generate_activity_step_stats_step.
  - apply preserves_traditional_attack; [exact _|].
    apply mark_compromised_stats_step.
  - apply preserves_zerotrust_attack; [exact _|..].
    + apply mark_compromised_stats_step.
    + apply network_graph_getitem_stats_step.
  - repeat preserves_step. apply preserves_start_attack; [exact _|..].
    + apply mark_compromised_stats_step.
    + apply network_graph_getitem_stats_step.
  - apply reset_network_stats_step.
Qed.

Lemma reachable_stats_consistent w :
  reachable w -> stats_consistent (activity_stats (self w)).
Proof.
  induction 1 as [h|c w _ IH].
  - rewrite self_initial. apply zero_stats_consistent.
  - by apply exec_stats_step.
Qed.

(** One turn of the activity loop, run from a world where it has users and
    devices to pick from and the counters add up. *)
Lemma generate_activity_step_run w :
  dict_keys (users (self w)) ≠ [] ->
  eligible_devices (self w) ≠ [] ->
  stats_consistent (activity_stats (self w)) ->
  exists key n t w',
    key ∈ decision_keys /\
    dict_get key (activity_stats (self w)) = Some n /\
    dict_get "total_requests" (activity_stats (self w)) = Some t /\
    generate_activity_step w = (Return tt, w') /\
    self w' =
      set_activity_stats
        (dict_set "total_requests" (t + 1)
           (dict_set key (n + 1) (activity_stats (self w)))) (self w).
Proof.
  intros Hu He Hc. unfold generate_activity_step.
  erewrite bind_Return by reflexivity.
  destruct (random_choice_run _ w Hu) as (user_id & _ & E1).
  erewrite bind_Return by exact E1.
  destruct (random_choice_run _ (advance w) He) as (device_id & _ & E2).
  erewrite bind_Return by exact E2.
  destruct (random_choice_run resources (advance (advance w)))
    as (res & _ & E3); [done|].
  erewrite bind_Return by exact E3.
  erewrite bind_Return by apply time_time_run.
  match goal with |- context [bind (evaluate_zerotrust_access ?q) _ ?w4] =>
    destruct (evaluate_total w4 q) as (r & E4);
    destruct (increments_run (AccessDecision_value (decision r)) w4
                (AccessDecision_value_key _) Hc)
      as (n & t & Hn & Ht & E5 & E6 & _)
  end.
  erewrite bind_Return by exact E4.
  erewrite bind_Return by exact E5.
  erewrite bind_Return by exact E6.
  exists (AccessDecision_value (decision r)), n, t. eexists.
  split; [apply AccessDecision_value_key|].
  split; [exact Hn|]. split; [exact Ht|].
  split; reflexivity.
Qed.

(** C10: in every reachable world the three decision counters add up to
    the total (they do after initialisation, and every command, a reset
    and a single turn of the activity loop included, keeps it so); and a
    turn of the activity loop run from such a world returns, having added
    one to exactly one decision counter and one to the total. *)
Theorem activity_counters_add_up (w : World) :
  reachable w ->
  (exists a d c,
     activity_stats (self w) =
       [ ("allowed", a); ("denied", d); ("challenged", c);
         ("total_requests", a + d + c) ]) /\
  (exists key n t w',
     key ∈ ["allowed"; "denied"; "challenged"] /\
     dict_get key (activity_stats (self w)) = Some n /\
     dict_get "total_requests" (activity_stats (self w)) = Some t /\
     generate_activity_step w = (Return tt, w') /\
     activity_stats (self w') =
       dict_set "total_requests" (t + 1)
         (dict_set key (n + 1) (activity_stats (self w)))).
Proof.
  intros Hw. pose proof (reachable_stats_consistent w Hw) as Hc.
  split; [exact Hc|].
  destruct (generate_activity_step_run w (reachable_users_nonempty w Hw)
              (reachable_eligible_nonempty w Hw) Hc)
    as (key & n & t & w' & Hkey & Hn & Ht & Hrun & Hself).
  exists key, n, t, w'. repeat (split; [done|]). by rewrite Hself.
Qed.

Lemma activity_counters_add_up_witness :
  reachable (exec cmd_activity_step (ZeroTrustNetworkSimulator example_host)).2 /\
  stats_consistent
    (activity_stats
       (self (exec cmd_activity_step
                (ZeroTrustNetworkSimulator example_host)).2)).
Proof.
  assert (reachable
            (exec cmd_activity_step (ZeroTrustNetworkSimulator example_host)).2)
    as Hw by apply reachable_exec, reachable_init.
  split; [exact Hw|].
  exact (proj1 (activity_counters_add_up _ Hw)).
Defined.

(** ** Decisions of the evaluator *)





(** C6: a request whose user id or device id is not in the topology is
    denied with reason "Unknown user or device" and trust score 0.0; the
    result has no risk factors, nothing is raised and the world (state,
    emitted events, random source and clock) is left as it was. *)
Theorem unknown_user_or_device_denied (w : World) (request : AccessRequest) :
  dict_get (req_user_id request) (users (self w)) = None \/
  dict_get (req_device_id request) (devices (self w)) = None ->
  evaluate_zerotrust_access request w =
    (Return {| decision := DENY; reason := "Unknown user or device";
               result_trust_score := 0%float; risk_factors := None |}, w).
Proof. apply evaluate_unknown. Qed.

Lemma unknown_user_or_device_denied_witness :
  dict_get "mallory" (users (self fresh_world)) = None /\
  evaluate_zerotrust_access stranger_request fresh_world =
    (Return {| decision := DENY; reason := "Unknown user or device";
               result_trust_score := 0%float; risk_factors := None |},
     fresh_world).
Proof.
  split; [vm_compute; reflexivity|].
  apply (unknown_user_or_device_denied fresh_world stranger_request).
  left. vm_compute. reflexivity.
Defined.

(** ** The overall risk *)











(** ** The worked example *)

Lemma host_initial h : host (ZeroTrustNetworkSimulator h) = h.
Proof. reflexivity. Qed.

Lemma self_low_trust h :
  self (low_trust_world h) =
    with_trust_score "ws-finance-01" 0.5 initial_network.
Proof. unfold low_trust_world. cbn [self]. by rewrite self_initial. Qed.

Lemma host_low_trust h : host (low_trust_world h) = h.
Proof. reflexivity. Qed.

Lemma hour_risk_business hour : 9 <= hour <= 17 -> hour_risk hour = 0.9%float.
Proof.
  intros [H1 H2]. unfold hour_risk.
  apply Z.leb_le in H1, H2. by rewrite H1, H2.
Qed.

(** C5: in the fresh simulator, on any host, alice.finance (risk 0.3) asks
    for financial_data from ws-finance-01 (trust 0.8, not compromised) at a
    business hour.  The four components are 0.09, 0.06, 0.2375 and 0.015
    and the overall risk 0.4025, each up to 1e-15; the insufficient-trust
    check does not fire (the sensitivity 0.95 is above 0.8 but the trust 0.8
    is not below 0.8) and the request is allowed.
    With the device trusted at 0.5 instead, the same request is denied for
    insufficient device trust. *)
Theorem worked_example (h : Host) (now : float) :
  9 <= local_hour h now <= 17 ->
  let w := ZeroTrustNetworkSimulator h in
  let w_low := low_trust_world h in
  risk_score <$> dict_get "alice.finance" (users (self w)) = Some 0.3%float /\
  trust_score <$> dict_get "ws-finance-01" (devices (self w)) = Some 0.8%float /\
  is_compromised <$> dict_get "ws-finance-01" (devices (self w)) = Some false /\
  (exists r user_risk device_risk resource_sensitivity time_risk,
     evaluate_zerotrust_access (alice_request now) w = (Return r, w) /\
     risk_factors r =
       Some [ ("user_risk", user_risk); ("device_risk", device_risk);
              ("resource_sensitivity", resource_sensitivity);
              ("time_risk", time_risk) ] /\
     within user_risk (9 # 100) tolerance = true /\
     within device_risk (6 # 100) tolerance = true /\
     within resource_sensitivity (2375 # 10000) tolerance = true /\
     within time_risk (15 # 1000) tolerance = true /\
     within (sum (returned_risk_factors r)) (4025 # 10000) tolerance = true /\
     _get_resource_sensitivity (resource (alice_request now)) = 0.95%float /\
     (0.8 <? 0.95)%float = true /\
     (0.8 <? 0.8)%float = false /\
     decision r = ALLOW /\
     reason r = "Low risk profile - access granted") /\
  trust_score <$> dict_get "ws-finance-01" (devices (self w_low)) = Some 0.5%float /\
  (exists r,
     evaluate_zerotrust_access (alice_request now) w_low = (Return r, w_low) /\
     decision r = DENY /\
     reason r = "Insufficient device trust for sensitive resource").
Proof.
  intros Hhour. cbv zeta.
  pose proof (hour_risk_business _ Hhour) as Hrisk.
  set (alice := mkUser "alice.finance" "Alice Johnson" "CFO" 0.3 "finance").
  set (ws := mkDevice "ws-finance-01" WORKSTATION "192.168.2.10" 0.8 false
               "office" 200 300).
  set (ws_low := mkDevice "ws-finance-01" WORKSTATION "192.168.2.10" 0.5 false
                   "office" 200 300).
  assert (dict_get "alice.finance" (users initial_network) = Some alice) as Hu
    by (vm_compute; reflexivity).
  assert (dict_get "ws-finance-01" (devices initial_network) = Some ws) as Hd
    by (vm_compute; reflexivity).
  assert (dict_get "ws-finance-01"
            (devices (with_trust_score "ws-finance-01" 0.5 initial_network))
          = Some ws_low) as Hd_low
    by (vm_compute; reflexivity).
  assert (dict_get "alice.finance"
            (users (with_trust_score "ws-finance-01" 0.5 initial_network))
          = Some alice) as Hu_low
    by (vm_compute; reflexivity).
  split; [rewrite self_initial; vm_compute; reflexivity|].
  split; [rewrite self_initial; vm_compute; reflexivity|].
  split; [rewrite self_initial; vm_compute; reflexivity|].
  split; [|split].
  - pose proof (evaluate_known (ZeroTrustNetworkSimulator h)
                  (alice_request now) alice ws) as Hrun.
    rewrite self_initial, host_initial in Hrun.
    specialize (Hrun Hu Hd). cbn [resource timestamp alice_request] in Hrun.
    rewrite Hrisk in Hrun.
    do 5 eexists. split; [exact Hrun|].
    split; [reflexivity|].
    repeat split; vm_compute; reflexivity.
  - rewrite self_low_trust. vm_compute. reflexivity.
  - pose proof (evaluate_known (low_trust_world h)
                  (alice_request now) alice ws_low) as Hrun.
    rewrite self_low_trust, host_low_trust in Hrun.
    specialize (Hrun Hu_low Hd_low).
    cbn [resource timestamp alice_request] in Hrun.
    rewrite Hrisk in Hrun.
    eexists. split; [exact Hrun|].
    split; vm_compute; reflexivity.
Qed.

Lemma worked_example_witness :
  9 <= local_hour example_host 1700000000 <= 17 /\
  exists r,
    evaluate_zerotrust_access (alice_request 1700000000) fresh_world =
      (Return r, fresh_world) /\
    decision r = ALLOW.
Proof.
  assert (9 <= local_hour example_host 1700000000 <= 17) as Hhour
    by (vm_compute; split; discriminate).
  split; [exact Hhour|].
  destruct (worked_example example_host 1700000000 Hhour)
    as (_ & _ & _ & (r & ? & ? & ? & ? & Hr & Hrest) & _).
  exists r. split; [exact Hr|]. apply Hrest.
Defined.

(** ** The order on device ids *)

Lemma ltb_irrefl a : String.ltb a a = false.
Proof.
  unfold String.ltb. pose proof (String.compare_antisym a a) as H.
  destruct (String.compare a a); done.
Qed.

Lemma ltb_asym a b : String.ltb a b = true -> String.ltb b a = false.
Proof.
  unfold String.ltb. rewrite (String.compare_antisym b a).
  by destruct (String.compare a b).
Qed.

Lemma ltb_total a b :
  a ≠ b -> String.ltb a b = true \/ String.ltb b a = true.
Proof.
  intros Hne. unfold String.ltb. rewrite (String.compare_antisym b a).
  destruct (String.compare a b) eqn:E; cbn; auto.
  by apply String.compare_eq_iff in E.
Qed.

(** ** Well-formed graphs *)

Lemma adjacent_edge s a b : adjacent s a b <-> edge (network_graph s) a b.
Proof. reflexivity. Qed.

Lemma graph_ok_b_sound g : graph_ok_b g = true -> graph_ok g.
Proof.
  unfold graph_ok_b. intros [Hkeys Hall]%andb_prop.
  apply bool_decide_eq_true in Hkeys. rewrite forallb_forall in Hall.
  assert (forall a targets b, (a, targets) ∈ g -> b ∈ targets ->
            NoDup targets /\ edge g b a /\ a ≠ b) as Hentry.
  { intros a targets b Ha Hb. apply list_elem_of_In, Hall in Ha.
    apply andb_prop in Ha as [Hnd Hts]. apply bool_decide_eq_true in Hnd.
    rewrite forallb_forall in Hts. apply list_elem_of_In, Hts in Hb.
    apply andb_prop in Hb as [Hsym Hne]. apply bool_decide_eq_true in Hsym.
    split; [done|]. split.
    - destruct (dict_get b g) as [ts|] eqn:Hb'; cbn in Hsym.
      + by exists ts.
      + by apply elem_of_nil in Hsym.
    - apply negb_true_iff, String.eqb_neq in Hne. done. }
  split; [done|]. split; [|split].
  - intros a targets Ha. apply list_elem_of_In, Hall in Ha.
    apply andb_prop in Ha as [Hnd _]. by apply bool_decide_eq_true in Hnd.
  - intros a b (ts & Hts & Hb). apply dict_get_Some_elem in Hts.
    by destruct (Hentry a ts b Hts Hb) as (_ & ? & _).
  - intros a (ts & Hts & Hb). apply dict_get_Some_elem in Hts.
    by destruct (Hentry a ts a Hts Hb) as (_ & _ & ?).
Qed.

Lemma initial_network_graph_ok : graph_ok (network_graph initial_network).
Proof. apply graph_ok_b_sound. vm_compute. reflexivity. Qed.

#[local] Instance graph_step_preorder : PreOrder graph_step.
Proof. split; unfold graph_step; [intros s | intros s1 s2 s3]; tauto. Qed.

Lemma dict_set_absent {V} k (v : V) d :
  dict_get k d = None -> dict_set k v d = d ++ [(k, v)].
Proof.
  induction d as [|[k' v'] d IH]; cbn; [done|].
  case_decide; [done|]. intros Hrest. by rewrite IH.
Qed.

(** Reading a missing key stores an empty set: no edge comes or goes. *)
Lemma graph_ok_getitem key g :
  dict_get key g = None -> graph_ok g -> graph_ok (dict_set key [] g).
Proof.
  intros Hnone (Hkeys & Hsets & Hsym & Hirr).
  assert (forall a b, edge (dict_set key [] g) a b <-> edge g a b) as Hedge.
  { intros a b. unfold edge. destruct (decide (key = a)) as [->|Hne].
    - rewrite dict_get_set_eq, Hnone. split.
      + intros (ts & [= <-] & Hb). by apply elem_of_nil in Hb.
      + by intros (ts & ? & _).
    - by rewrite dict_get_set_ne. }
  rewrite dict_set_absent by done. split; [|split; [|split]].
  - unfold dict_keys. rewrite fmap_app. apply NoDup_app. split; [done|].
    split; [|apply NoDup_singleton].
    intros k Hk ->%list_elem_of_singleton. by apply dict_get_None in Hnone.
  - intros a ts [Hin|[= -> ->]%list_elem_of_singleton]%elem_of_app.
    + by eapply Hsets.
    + constructor.
  - intros a b. rewrite <- (dict_set_absent key [] g Hnone), !Hedge.
    apply Hsym.
  - intros a. rewrite <- (dict_set_absent key [] g Hnone), Hedge.
    apply Hirr.
Qed.

Lemma mark_compromised_graph_step target :
  preserves graph_step (mark_compromised target).
Proof.
  intros w. pose proof (mark_compromised_run target w) as H.
  destruct (dict_get target (devices (self w))); rewrite H; by intros ?.
Qed.

Lemma stats_increment_graph_step key :
  preserves graph_step (stats_increment key).
Proof.
  intros w. pose proof (stats_increment_run key w) as H.
  destruct (dict_get key (activity_stats (self w))); rewrite H; by intros ?.
Qed.

Lemma network_graph_getitem_graph_step key :
  preserves graph_step (network_graph_getitem key).
Proof.
  intros w. pose proof (network_graph_getitem_run key w) as H.
  destruct (dict_get key (network_graph (self w))) eqn:Hk; rewrite H;
    [by intros ?|].
  intros Hok. by apply graph_ok_getitem.
Qed.

Lemma reset_network_graph_step : preserves graph_step reset_network.
Proof. intros w. rewrite reset_network_run. by intros ?. Qed.

Lemma exec_graph_step c : preserves graph_step (exec c).
Proof.
  apply preserves_exec; first [exact _ | intros ?];
    auto using mark_compromised_graph_step, stats_increment_graph_step,
      network_graph_getitem_graph_step, reset_network_graph_step.
Qed.

Lemma reachable_graph_ok w : reachable w -> graph_ok (network_graph (self w)).
Proof.
  induction 1 as [h|c w _ IH].
  - rewrite self_initial. apply initial_network_graph_ok.
  - by apply exec_graph_step.
Qed.

(** ** The link list *)

Lemma elem_of_topology_links g a b :
  mkLink a b ∈ topology_links g <->
  exists targets, (a, targets) ∈ g /\ b ∈ targets /\ String.ltb a b = true.
Proof.
  unfold topology_links. rewrite list_elem_of_bind. split.
  - intros ([s ts] & Hin & Hg). apply list_elem_of_bind in Hin as (t & Hl & Ht).
    destruct (String.ltb s t) eqn:Hlt; [|by apply elem_of_nil in Hl].
    apply list_elem_of_singleton in Hl as [= -> ->]. by exists ts.
  - intros (ts & Hg & Hb & Hlt). exists (a, ts). split; [|done].
    apply list_elem_of_bind. exists b. split; [|done].
    rewrite Hlt. by apply list_elem_of_singleton.
Qed.

Lemma topology_links_NoDup g :
  NoDup (dict_keys g) -> (forall a targets, (a, targets) ∈ g -> NoDup targets) ->
  NoDup (topology_links g).
Proof.
  intros Hkeys Hsets. unfold topology_links. apply NoDup_bind.
  - intros [s1 t1] [s2 t2] l H1 H2 Hl1 Hl2.
    apply list_elem_of_bind in Hl1 as (b1 & Hl1 & Hb1).
    apply list_elem_of_bind in Hl2 as (b2 & Hl2 & Hb2).
    destruct (String.ltb s1 b1); [|by apply elem_of_nil in Hl1].
    destruct (String.ltb s2 b2); [|by apply elem_of_nil in Hl2].
    apply list_elem_of_singleton in Hl1 as ->.
    apply list_elem_of_singleton in Hl2 as [= -> ->].
    f_equal.
    apply (dict_get_elem_NoDup _ _ _ Hkeys) in H1, H2. congruence.
  - intros [s ts] Hin. apply NoDup_bind.
    + intros b1 b2 l _ _ Hl1 Hl2.
      destruct (String.ltb s b1); [|by apply elem_of_nil in Hl1].
      destruct (String.ltb s b2); [|by apply elem_of_nil in Hl2].
      apply list_elem_of_singleton in Hl1 as ->.
      by apply list_elem_of_singleton in Hl2 as [= ->].
    + intros b _. destruct (String.ltb s b); [apply NoDup_singleton|constructor].
    + by eapply Hsets.
  - unfold dict_keys in Hkeys. by eapply NoDup_fmap_1.
Qed.

(** C9: in every reachable world [get_network_topology] returns, without
    writing, a link list in which no link is repeated, each link goes from
    a smaller id to a strictly larger one (so none is a self-loop) along
    an edge of the adjacency relation, no two links join the same pair of
    devices, and each edge of the adjacency relation, which is symmetric
    and has no self-loop, appears in its increasing orientation. *)
Theorem topology_links_once (w : World) :
  reachable w ->
  exists t,
    get_network_topology w = (Return t, w) /\
    NoDup (links t) /\
    (forall l, l ∈ links t ->
       String.ltb (link_source l) (link_target l) = true /\
       link_source l ≠ link_target l /\
       adjacent (self w) (link_source l) (link_target l)) /\
    (forall a b, mkLink a b ∈ links t -> mkLink b a ∉ links t) /\
    (forall a b, adjacent (self w) a b ->
       a ≠ b /\ adjacent (self w) b a /\
       (mkLink a b ∈ links t <-> String.ltb a b = true) /\
       (mkLink b a ∈ links t <-> String.ltb b a = true) /\
       (mkLink a b ∈ links t \/ mkLink b a ∈ links t)).
Proof.
  intros Hw. destruct (reachable_graph_ok w Hw) as (Hkeys & Hsets & Hsym & Hirr).
  eexists. split; [reflexivity|]. cbn [links].
  set (g := network_graph (self w)) in *.
  assert (forall a b, mkLink a b ∈ topology_links g <->
            edge g a b /\ String.ltb a b = true) as Hlink.
  { intros a b. rewrite elem_of_topology_links. split.
    - intros (ts & Hg & Hb & Hlt). split; [|done]. exists ts.
      split; [|done]. by apply dict_get_elem_NoDup.
    - intros ((ts & Hg & Hb) & Hlt). exists ts.
      split; [by apply dict_get_Some_elem|done]. }
  split; [by apply topology_links_NoDup|]. split; [|split].
  - intros [a b] Hl. apply Hlink in Hl as [He Hlt]. cbn.
    split; [done|]. split; [|done]. intros ->. by rewrite ltb_irrefl in Hlt.
  - intros a b [_ Hab]%Hlink [_ Hba]%Hlink.
    apply ltb_asym in Hab. congruence.
  - intros a b He. apply adjacent_edge in He.
    assert (a ≠ b) as Hne by (intros ->; by apply (Hirr b)).
    pose proof (Hsym a b He) as He'.
    split; [done|]. split; [done|]. rewrite !Hlink.
    split; [tauto|]. split; [tauto|].
    destruct (ltb_total a b Hne); [left|right]; done.
Qed.

Lemma topology_links_once_witness :
  exists t,
    get_network_topology fresh_world = (Return t, fresh_world) /\
    NoDup (links t).
Proof.
  destruct (topology_links_once fresh_world (reachable_init example_host))
    as (t & Ht & Hnd & _).
  exists t. split; [exact Ht|exact Hnd].
Defined.

(** ** The zero-trust attack *)

Lemma _simulate_zerotrust_attack_unfold attack_id entry_point :
  _simulate_zerotrust_attack attack_id entry_point =
  (mark_compromised entry_point ;;
   emit (attack_progress "external" entry_point "success" "zerotrust"
           "Initial compromise via social engineering"
           [entry_point] attack_id) ;;
   time_sleep 1.5 ;;
   targets <- network_graph_getitem entry_point ;;
   compromised <-
     for_each (take 4 targets) (zerotrust_attempt attack_id entry_point)
       [entry_point] ;;
   s <- get_self ;;
   containment_effectiveness <-
     containment (length (devices s)) (length compromised) ;;
   duration <- time_time ;;
   emit (attack_complete "zerotrust" (length compromised) (length (devices s))
           containment_effectiveness attack_id entry_point duration)).
Proof. reflexivity. Qed.

Lemma flagged_nil ds : flagged [] ds ds.
Proof. intros k. by rewrite decide_False by apply not_elem_of_nil. Qed.

(** Setting the flag of one more device. *)
Lemma flagged_mark marked target d ds0 ds :
  flagged marked ds0 ds -> dict_get target ds = Some d ->
  flagged (set_add target marked) ds0
    (dict_set target (set_is_compromised true d) ds).
Proof.
  intros Hfl Hd k. specialize (Hfl k).
  destruct (decide (target = k)) as [->|Hne].
  - rewrite dict_get_set_eq.
    rewrite decide_True by (apply elem_of_set_add; by left).
    rewrite Hd in Hfl. case_decide.
    + destruct (dict_get k ds0) as [d0|]; [|done]. cbn in *.
      injection Hfl as ->. by rewrite set_is_compromised_idem.
    + by rewrite <- Hfl.
  - rewrite dict_get_set_ne by done. rewrite Hfl.
    destruct (decide (k ∈ marked)) as [Hin|Hnin].
    + rewrite decide_True; [done|]. apply elem_of_set_add. by right.
    + rewrite decide_False; [done|].
      intros [->|?]%elem_of_set_add; done.
Qed.

(** Naming a device that does not exist changes nothing. *)
Lemma flagged_missing marked target ds0 ds :
  flagged marked ds0 ds -> dict_get target ds = None ->
  flagged (set_add target marked) ds0 ds.
Proof.
  intros Hfl Hd k. pose proof (Hfl target) as Ht. rewrite Hd in Ht.
  rewrite (Hfl k).
  destruct (decide (k ∈ marked)) as [Hin|Hnin].
  - rewrite decide_True; [done|]. apply elem_of_set_add. by right.
  - destruct (decide (k = target)) as [->|Hne].
    + rewrite decide_True by (apply elem_of_set_add; by left).
      rewrite decide_False in Ht by done. by rewrite <- Ht.
    + rewrite decide_False; [done|].
      intros [->|?]%elem_of_set_add; done.
Qed.

(** What one attempt may do: the set of marked devices stays or gains the
    target, the flags follow it, and the graph is not touched. *)
Lemma zerotrust_attempt_run attack_id entry_point target c ds0 w :
  flagged c ds0 (devices (self w)) ->
  exists c',
    flagged c' ds0
      (devices (self (zerotrust_attempt attack_id entry_point target c w).2)) /\
    (forall k, k ∈ c' -> k = target \/ k ∈ c) /\
    (length c' <= S (length c))%nat /\
    ((zerotrust_attempt attack_id entry_point target c w).1 = Return c' \/
     exists e, (zerotrust_attempt attack_id entry_point target c w).1 = Raise e).
Proof.
  intros Hfl. unfold zerotrust_attempt.
  destruct (random_uniform_run 1 1.8 w) as [delay E1].
  erewrite bind_Return by exact E1.
  erewrite bind_Return by reflexivity.
  destruct (random_random_run (advance w)) as [draw E2].
  erewrite bind_Return by exact E2.
  destruct (draw <? 0.1)%float.
  - pose proof (mark_compromised_run target (advance (advance w))) as Hm.
    cbn [self advance] in Hm.
    destruct (dict_get target (devices (self w))) as [d|] eqn:Hd.
    + exists (set_add target c).
      erewrite bind_Return;
        [|erewrite bind_Return by exact Hm; reflexivity].
      cbn. split; [by apply flagged_mark|].
      split; [by intros k ?%elem_of_set_add|].
      split; [apply length_set_add|by left].
    + exists (set_add target c).
      erewrite bind_Raise;
        [|erewrite bind_Raise by exact Hm; reflexivity].
      cbn. split; [by apply flagged_missing|].
      split; [by intros k ?%elem_of_set_add|].
      split; [apply length_set_add|right; by eexists].
  - exists c. erewrite bind_Return by reflexivity. cbn.
    split; [done|]. split; [auto|]. split; [lia|by left].
Qed.

Lemma zerotrust_loop_run attack_id entry_point targets c ds0 w :
  flagged c ds0 (devices (self w)) ->
  exists c',
    flagged c' ds0
      (devices (self (for_each targets
                        (zerotrust_attempt attack_id entry_point) c w).2)) /\
    (forall k, k ∈ c' -> k ∈ targets \/ k ∈ c) /\
    (length c' <= length c + length targets)%nat /\
    ((for_each targets (zerotrust_attempt attack_id entry_point) c w).1
       = Return c' \/
     exists e,
       (for_each targets (zerotrust_attempt attack_id entry_point) c w).1
         = Raise e).
Proof.
  revert c w. induction targets as [|t ts IH]; intros c w Hfl.
  - exists c. cbn. split; [done|]. split; [auto|]. split; [lia|by left].
  - cbn [for_each]. unfold bind at 1 2 3.
    destruct (zerotrust_attempt_run attack_id entry_point t c ds0 w Hfl)
      as (c1 & Hfl1 & Hin1 & Hlen1 & Hres).
    destruct (zerotrust_attempt attack_id entry_point t c w) as [o w1].
    cbn [fst snd] in *. destruct Hres as [->|[e ->]].
    + destruct (IH c1 w1 Hfl1) as (c' & Hfl' & Hin' & Hlen' & Hres').
      exists c'. split; [done|]. split; [|split; [cbn; lia|done]].
      intros k Hk. destruct (Hin' k Hk) as [?|Hk1]; [left; by right|].
      destruct (Hin1 k Hk1) as [->|?]; [left; by left|by right].
    + exists c1. cbn. split; [done|]. split; [|split; [lia|right; by eexists]].
      intros k Hk. destruct (Hin1 k Hk) as [->|?]; [left; by left|by right].
Qed.

Lemma containment_run n k w :
  (exists pct, containment n k w = (Return pct, w)) \/
  (exists e, containment n k w = (Raise e, w)).
Proof.
  unfold containment, int_truediv, bind.
  destruct (Z.of_nat n =? 0); [right; by eexists|].
  destruct (Z.of_nat n - Z.of_nat k =? 0); left; by eexists.
Qed.

(** C3: whatever the state, the entry point and the draws, a zero-trust run
    marks only devices of a set [marked] made of the entry point and some of
    the first four neighbours it reads from the graph, so at most
    1 + min(4, degree(entry point)) devices, each the entry point or one of
    its direct neighbours; every other device keeps its flag; and a run
    that returns reports the size of that set as its compromised count. *)
Theorem zerotrust_attack_contained (w : World) (attack_id entry_point : string) :
  let run := _simulate_zerotrust_attack attack_id entry_point w in
  let neighbors :=
    default [] (dict_get entry_point (network_graph (self w))) in
  exists marked : list string,
    (forall k, k ∈ marked -> k = entry_point \/ k ∈ take 4 neighbors) /\
    (forall k, k ∈ marked ->
       k = entry_point \/ adjacent (self w) entry_point k) /\
    (length marked <= 1 + min 4 (length neighbors))%nat /\
    (forall k,
       dict_get k (devices (self run.2)) =
         if decide (k ∈ marked)
         then set_is_compromised true <$> dict_get k (devices (self w))
         else dict_get k (devices (self w))) /\
    (run.1 = Return tt ->
       exists pct duration,
         last (emitted run.2) =
           Some (attack_complete "zerotrust" (length marked)
                   (length (devices (self run.2))) pct attack_id entry_point
                   duration)).
Proof.
  cbv zeta. rewrite _simulate_zerotrust_attack_unfold.
  pose proof (mark_compromised_run entry_point w) as Hm.
  destruct (dict_get entry_point (devices (self w))) as [d|] eqn:Hd.
  2:{ erewrite bind_Raise by exact Hm. exists []. cbn.
      split; [by intros k ?%elem_of_nil|]. split; [by intros k ?%elem_of_nil|].
      split; [lia|]. split; [apply flagged_nil|done]. }
  erewrite bind_Return by exact Hm.
  erewrite bind_Return by reflexivity.
  erewrite bind_Return by reflexivity.
  match goal with |- context [bind (network_graph_getitem _) _ ?w2] =>
    set (w1 := w2) end.
  assert (flagged [entry_point] (devices (self w)) (devices (self w1))) as Hfl1.
  { pose proof (flagged_mark [] entry_point d _ _
                  (flagged_nil (devices (self w))) Hd) as H.
    unfold set_add in H. rewrite decide_False in H by apply not_elem_of_nil.
    exact H. }
  pose proof (network_graph_getitem_run entry_point w1) as Hg.
  change (network_graph (self w1)) with (network_graph (self w)) in Hg.
  set (neighbors := default [] (dict_get entry_point (network_graph (self w)))).
  assert (forall k, k ∈ neighbors -> adjacent (self w) entry_point k) as Hadj.
  { subst neighbors. intros k Hk. unfold adjacent.
    destruct (dict_get entry_point (network_graph (self w))) as [ts|];
      [by exists ts|by apply elem_of_nil in Hk]. }
  assert (exists w2,
            network_graph_getitem entry_point w1 = (Return neighbors, w2) /\
            devices (self w2) = devices (self w1)) as (w2 & Hg2 & Hdev2).
  { subst neighbors.
    destruct (dict_get entry_point (network_graph (self w))) as [ts|];
      eexists; (split; [exact Hg|reflexivity]). }
  erewrite bind_Return by exact Hg2. rewrite <- Hdev2 in Hfl1.
  destruct (zerotrust_loop_run attack_id entry_point (take 4 neighbors)
              [entry_point] (devices (self w)) w2 Hfl1)
    as (marked & Hfl & Hin & Hlen & Hres).
  exists marked.
  assert (forall k, k ∈ marked -> k = entry_point \/ k ∈ take 4 neighbors)
    as Hwhere.
  { intros k Hk. destruct (Hin k Hk) as [?|?%list_elem_of_singleton]; auto. }
  split; [exact Hwhere|]. split.
  { intros k Hk. destruct (Hwhere k Hk) as [?|Hk']; [by left|right].
    apply Hadj. by apply (subseteq_take 4 neighbors). }
  split.
  { rewrite length_take in Hlen. cbn [length] in Hlen. lia. }
  destruct (for_each (take 4 neighbors)
              (zerotrust_attempt attack_id entry_point) [entry_point] w2)
    as [o w3] eqn:Hloop.
  cbn [fst snd] in Hfl, Hres. destruct Hres as [->|[e ->]].
  2:{ erewrite bind_Raise by exact Hloop. by split. }
  erewrite bind_Return by exact Hloop.
  erewrite bind_Return by reflexivity.
  destruct (containment_run (length (devices (self w3))) (length marked) w3)
    as [[pct Hc]|[e Hc]].
  - erewrite bind_Return by exact Hc.
    erewrite bind_Return by apply time_time_run.
    rewrite emit_run. cbn [fst snd self emitted advance].
    split; [exact Hfl|]. intros _. do 2 eexists. apply last_snoc.
  - erewrite bind_Raise by exact Hc. cbn [fst snd]. by split.
Qed.

(** ** The traditional attack *)

Lemma _simulate_traditional_attack_unfold attack_id entry_point :
  _simulate_traditional_attack attack_id entry_point =
  (s <- get_self ;;
   mark_compromised entry_point ;;
   emit (attack_progress "external" entry_point "success" "traditional"
           "Initial compromise via phishing/malware"
           [entry_point] attack_id) ;;
   time_sleep 1.5 ;;
   compromised <-
     for_each (dict_keys (devices s))
       (traditional_spread attack_id entry_point) [entry_point] ;;
   containment_effectiveness <-
     containment (length (dict_keys (devices s))) (length compromised) ;;
   duration <- time_time ;;
   emit (attack_complete "traditional" (length compromised)
           (length (dict_keys (devices s)))
           containment_effectiveness attack_id entry_point duration)).
Proof. reflexivity. Qed.

(** One step of the spread: it returns, the target joins the marked set
    and gets its flag, and no key is lost. *)
Lemma traditional_spread_run attack_id entry_point target c ds0 w :
  flagged c ds0 (devices (self w)) ->
  dict_keys (devices (self w)) = dict_keys ds0 ->
  entry_point ∈ c ->
  target ∈ dict_keys ds0 ->
  exists c' w',
    traditional_spread attack_id entry_point target c w = (Return c', w') /\
    flagged c' ds0 (devices (self w')) /\
    dict_keys (devices (self w')) = dict_keys ds0 /\
    (forall k, k ∈ c' <-> k = target \/ k ∈ c) /\
    (NoDup c -> NoDup c').
Proof.
  intros Hfl Hkeys Hentry Htarget. unfold traditional_spread.
  case_bool_decide as Hne.
  2:{ subst target. exists c, w.
      split; [done|]. split; [done|]. split; [done|]. split; [|done].
      intros k. split; [auto|]. by intros [->|?]. }
  destruct (random_uniform_run 1 2 w) as [delay E1].
  erewrite bind_Return by exact E1.
  erewrite bind_Return by reflexivity.
  pose proof (mark_compromised_run target (advance w)) as Hm.
  cbn [self advance] in Hm.
  destruct (dict_get target (devices (self w))) as [d|] eqn:Hd.
  2:{ apply dict_get_None in Hd. rewrite Hkeys in Hd. done. }
  erewrite bind_Return by exact Hm.
  match goal with |- context [bind (random_choice ?l) _ ?w1] =>
    destruct (random_choice_run l w1) as (source & _ & E2)
  end.
  { intros Hnil.
    assert (entry_point ∈ set_discard target (set_add target c)) as Hin.
    { apply elem_of_set_discard. split; [|done].
      apply elem_of_set_add. by right. }
    rewrite Hnil in Hin. by apply elem_of_nil in Hin. }
  erewrite bind_Return by exact E2.
  erewrite bind_Return by reflexivity.
  do 2 eexists. split; [reflexivity|].
  cbn [self advance devices set_devices].
  split; [by apply flagged_mark|].
  split; [by rewrite (dict_keys_set_present _ _ d), Hkeys|].
  split; [intros k; apply elem_of_set_add|apply NoDup_set_add].
Qed.

Lemma traditional_loop_run attack_id entry_point targets c ds0 w :
  flagged c ds0 (devices (self w)) ->
  dict_keys (devices (self w)) = dict_keys ds0 ->
  entry_point ∈ c ->
  (forall t, t ∈ targets -> t ∈ dict_keys ds0) ->
  exists c' w',
    for_each targets (traditional_spread attack_id entry_point) c w
      = (Return c', w') /\
    flagged c' ds0 (devices (self w')) /\
    dict_keys (devices (self w')) = dict_keys ds0 /\
    (forall k, k ∈ c' <-> k ∈ targets \/ k ∈ c) /\
    (NoDup c -> NoDup c').
Proof.
  revert c w. induction targets as [|t ts IH]; intros c w Hfl Hkeys He Hts.
  - exists c, w. split; [done|]. split; [done|]. split; [done|].
    split; [|done]. intros k. split; [auto|].
    by intros [?%elem_of_nil|?].
  - destruct (traditional_spread_run attack_id entry_point t c ds0 w
                Hfl Hkeys He) as (c1 & w1 & E1 & Hfl1 & Hkeys1 & Hin1 & Hnd1).
    { apply Hts. by left. }
    destruct (IH c1 w1 Hfl1 Hkeys1) as (c' & w' & E' & Hfl' & Hkeys' & Hin' & Hnd').
    { apply Hin1. by right. }
    { intros t' Ht'. apply Hts. by right. }
    exists c', w'. cbn [for_each]. erewrite bind_Return by exact E1.
    split; [exact E'|]. split; [done|]. split; [done|]. split; [|auto].
    intros k. rewrite Hin', Hin1, elem_of_cons. tauto.
Qed.

(** When every device is counted as compromised the report reads 0.0%. *)
Lemma containment_full n w :
  n ≠ 0%nat -> containment n n w = (Return "0.0%", w).
Proof.
  intros Hn. unfold containment, int_truediv.
  assert ((Z.of_nat n =? 0) = false) as -> by (apply Z.eqb_neq; lia).
  assert ((Z.of_nat n - Z.of_nat n =? 0) = true) as ->
    by (apply Z.eqb_eq; lia).
  assert ((Z.of_nat n <? 0) = false) as -> by (apply Z.ltb_ge; lia).
  reflexivity.
Qed.

(** C2: from any state whose devices are a dict (no key twice), a traditional
    attack through any device of the topology returns (it does not raise,
    and the loop is over a finite list), leaves every device compromised
    and the keys in place, and ends by reporting a compromised count equal
    to the number of devices and a containment of "0.0%". *)
Theorem traditional_attack_compromises_all (w : World)
  (attack_id entry_point : string) :
  NoDup (dict_keys (devices (self w))) ->
  entry_point ∈ dict_keys (devices (self w)) ->
  exists w' duration,
    _simulate_traditional_attack attack_id entry_point w = (Return tt, w') /\
    (forall d, d ∈ dict_values (devices (self w')) -> is_compromised d = true) /\
    dict_keys (devices (self w')) = dict_keys (devices (self w)) /\
    last (emitted w') =
      Some (attack_complete "traditional"
              (length (devices (self w))) (length (devices (self w)))
              "0.0%" attack_id entry_point duration).
Proof.
  intros Hnd Hentry. rewrite _simulate_traditional_attack_unfold.
  erewrite bind_Return by reflexivity.
  pose proof (mark_compromised_run entry_point w) as Hm.
  destruct (dict_get entry_point (devices (self w))) as [d|] eqn:Hd.
  2:{ by apply dict_get_None in Hd. }
  erewrite bind_Return by exact Hm.
  erewrite bind_Return by reflexivity.
  erewrite bind_Return by reflexivity.
  match goal with |- context [bind (for_each _ _ _) _ ?w1] =>
    destruct (traditional_loop_run attack_id entry_point
                (dict_keys (devices (self w))) [entry_point]
                (devices (self w)) w1)
      as (c' & w' & Eloop & Hfl & Hkeys & Hin & Hndc)
  end.
  { pose proof (flagged_mark [] entry_point d _ _
                  (flagged_nil (devices (self w))) Hd) as H.
    unfold set_add in H. rewrite decide_False in H by apply not_elem_of_nil.
    exact H. }
  { cbn [self devices set_devices]. by eapply dict_keys_set_present. }
  { by left. }
  { auto. }
  erewrite bind_Return by exact Eloop.
  assert (length c' = length (dict_keys (devices (self w)))) as Hlen.
  { apply Permutation_length, NoDup_Permutation; [|done|].
    - apply Hndc, NoDup_singleton.
    - intros k. rewrite Hin. split; [|auto].
      intros [?|Hk%list_elem_of_singleton]; [done|by subst k]. }
  rewrite Hlen.
  assert (length (dict_keys (devices (self w))) = length (devices (self w)))
    as Hlen' by apply length_fmap.
  rewrite Hlen'.
  erewrite bind_Return.
  2:{ apply containment_full. destruct (devices (self w)); [|done].
      by apply elem_of_nil in Hentry. }
  erewrite bind_Return by apply time_time_run.
  rewrite emit_run. do 2 eexists. split; [reflexivity|].
  cbn [self emitted advance]. split; [|split; [done|apply last_snoc]].
  intros d' (kd & -> & Hkd)%list_elem_of_fmap. destruct kd as [k d1].
  assert (dict_get k (devices (self w')) = Some d1) as Hget.
  { apply dict_get_elem_NoDup; [by rewrite Hkeys|done]. }
  rewrite (Hfl k) in Hget. rewrite decide_True in Hget.
  - destruct (dict_get k (devices (self w))); [|done].
    cbn in Hget. by injection Hget as <-.
  - apply Hin. left. rewrite <- Hkeys. apply list_elem_of_fmap.
    by exists (k, d1).
Qed.

Lemma traditional_attack_compromises_all_witness :
  NoDup (dict_keys (devices (self fresh_world))) /\
  "ws-hr-01" ∈ dict_keys (devices (self fresh_world)) /\
  exists w' duration,
    _simulate_traditional_attack "attack-0" "ws-hr-01" fresh_world
      = (Return tt, w') /\
    (forall d, d ∈ dict_values (devices (self w')) -> is_compromised d = true) /\
    dict_keys (devices (self w')) = dict_keys (devices (self fresh_world)) /\
    last (emitted w') =
      Some (attack_complete "traditional"
              (length (devices (self fresh_world)))
              (length (devices (self fresh_world)))
              "0.0%" "attack-0" "ws-hr-01" duration).
Proof.
  assert (NoDup (dict_keys (devices (self fresh_world)))) as Hnd
    by (apply (bool_decide_unpack _); vm_compute; exact I).
  assert ("ws-hr-01" ∈ dict_keys (devices (self fresh_world))) as Hin
    by (apply (bool_decide_unpack _); vm_compute; exact I).
  split; [exact Hnd|]. split; [exact Hin|].
  exact (traditional_attack_compromises_all fresh_world "attack-0" "ws-hr-01"
           Hnd Hin).
Defined.

(** ** The graph dict in reachable worlds *)

#[local] Instance graph_kept_preorder : PreOrder graph_kept.
Proof.
  split.
  - intros s _. done.
  - intros s1 s2 s3 H12 H23 HJ. destruct (H12 HJ) as [Hg Hk].
    destruct H23 as [Hg' Hk'].
    + intros k. rewrite Hg, Hk. apply HJ.
    + split; congruence.
Qed.

Lemma mark_compromised_graph_kept target :
  preserves graph_kept (mark_compromised target).
Proof.
  intros w. pose proof (mark_compromised_run target w) as H.
  destruct (dict_get target (devices (self w))) as [d|] eqn:Hd; rewrite H;
    [|reflexivity].
  intros _. split; [reflexivity|]. cbn [snd self devices set_devices].
  by eapply dict_keys_set_present.
Qed.

Lemma stats_increment_graph_kept key :
  preserves graph_kept (stats_increment key).
Proof.
  intros w. pose proof (stats_increment_run key w) as H.
  destruct (dict_get key (activity_stats (self w))); rewrite H;
    [|reflexivity].
  intros _. by split.
Qed.

Lemma reset_network_graph_kept : preserves graph_kept reset_network.
Proof.
  intros w. rewrite reset_network_run. intros _.
  split; [reflexivity|]. cbn [snd self devices].
  apply dict_keys_map_values.
Qed.

Lemma zerotrust_attempt_graph_kept attack_id entry_point target c :
  preserves graph_kept (zerotrust_attempt attack_id entry_point target c).
Proof.
  pose proof mark_compromised_graph_kept.
  unfold zerotrust_attempt. repeat preserves_step.
  all: match goal with attempt : _ * _ * _ |- _ =>
         destruct attempt as [[? ?] ?] end; repeat preserves_step.
Qed.

(** Reading the entry of a key that is present writes nothing. *)
Lemma network_graph_getitem_present {A} key (k : list string -> M A) w :
  key ∈ dict_keys (network_graph (self w)) ->
  exists targets, (x <- network_graph_getitem key ;; k x) w = k targets w.
Proof.
  intros [targets Hk]%dict_get_is_Some. exists targets.
  pose proof (network_graph_getitem_run key w) as H. rewrite Hk in H.
  by erewrite bind_Return by exact H.
Qed.

(** The zero-trust attack reads the graph under the entry point only after
    it has found the entry point among the devices. *)
Lemma zerotrust_attack_graph_kept attack_id entry_point :
  preserves graph_kept (_simulate_zerotrust_attack attack_id entry_point).
Proof.
  intros w HJ. rewrite _simulate_zerotrust_attack_unfold.
  pose proof (mark_compromised_graph_kept entry_point w HJ) as Hmark.
  pose proof (mark_compromised_run entry_point w) as Hm.
  destruct (dict_get entry_point (devices (self w))) as [d|] eqn:Hd.
  2:{ erewrite bind_Raise by exact Hm. by split. }
  rewrite Hm in Hmark. erewrite bind_Return by exact Hm.
  erewrite bind_Return by reflexivity.
  erewrite bind_Return by reflexivity.
  match goal with |- context [bind (network_graph_getitem _) ?k ?w1] =>
    destruct (network_graph_getitem_present entry_point k w1) as [ts ->];
    [|assert (preserves graph_kept (k ts)) as Hrest;
      [|pose proof (Hrest w1) as Hrest1]]
  end.
  - apply HJ, dict_get_is_Some. by rewrite Hd.
  - pose proof zerotrust_attempt_graph_kept. repeat preserves_step.
  - cbn [snd] in Hmark. destruct Hmark as [Hg Hk].
    destruct Hrest1 as [Hg' Hk'].
    + intros k Hin. change (k ∈ dict_keys (network_graph (self w))).
      apply HJ. rewrite <- Hk. exact Hin.
    + split; [exact Hg'|]. rewrite Hk'. exact Hk.
Qed.

Lemma exec_graph_kept c : preserves graph_kept (exec c).
Proof.
  pose proof mark_compromised_graph_kept.
  pose proof stats_increment_graph_kept.
  pose proof reset_network_graph_kept.
  pose proof zerotrust_attack_graph_kept.
  destruct c; unfold exec, discard, simulate_normal_activity;
    repeat preserves_step.
  - apply preserves_generate_activity_step; first [exact _|assumption].
  - apply preserves_generate_activity; first [exact _|assumption].
  - apply preserves_traditional_attack; first [exact _|assumption].
  - unfold simulate_lateral_movement_attack. repeat preserves_step.
    apply preserves_traditional_attack; first [exact _|assumption].
Qed.

Lemma initial_devices_in_graph : devices_in_graph initial_network.
Proof.
  intros k Hk.
  assert (Forall (fun k => k ∈ dict_keys (network_graph initial_network))
            (dict_keys (devices initial_network))) as Hall
    by (apply (bool_decide_unpack _); vm_compute; exact I).
  rewrite Forall_forall in Hall. by apply Hall.
Qed.

Lemma reachable_graph_kept w :
  reachable w ->
  devices_in_graph (self w) /\
  network_graph (self w) = network_graph initial_network.
Proof.
  induction 1 as [h|c w _ [HJ Hg]].
  - rewrite self_initial. split; [apply initial_devices_in_graph|done].
  - destruct (exec_graph_kept c w HJ) as [Hg' Hk'].
    split; [|congruence]. intros k. rewrite Hg', Hk'. apply HJ.
Qed.

(** C8: whatever the command and the state it starts from, the devices
    stay the same in number and in order of their keys, each keeps its
    identity, type, address, trust score and position, and the users and
    the adjacency relation stay as they were; what may differ is the
    compromised flags, the counters and the attack sessions.  In a
    reachable state the graph dict itself is left untouched. *)
Theorem commands_keep_topology (c : command) (w : World) :
  let s := self w in
  let s' := self (exec c w).2 in
  dict_keys (devices s') = dict_keys (devices s) /\
  (forall k d', dict_get k (devices s') = Some d' ->
     exists d, dict_get k (devices s) = Some d /\
       device_id d' = device_id d /\ device_type d' = device_type d /\
       ip_address d' = ip_address d /\ trust_score d' = trust_score d /\
       location d' = location d /\ x d' = x d /\ y d' = y d) /\
  users s' = users s /\
  (forall a b, adjacent s' a b <-> adjacent s a b) /\
  (reachable w -> network_graph s' = network_graph s).
Proof.
  cbv zeta. pose proof (exec_same_topology c w) as Hframe.
  split; [|split; [|split; [|split]]].
  - destruct Hframe as (Hd & _).
    apply (f_equal dict_keys) in Hd. by rewrite !dict_keys_map_values in Hd.
  - intros k d' Hk.
    destruct (same_topology_device _ _ _ _ Hframe Hk) as (d & Hd & Hs).
    exists d. split; [done|]. by apply static_fields.
  - apply Hframe.
  - apply Hframe.
  - intros Hw. apply exec_graph_kept. by apply reachable_graph_kept.
Qed.

(** ** The embedding at work *)

Example initial_device_ids :
  dict_keys (devices initial_network) =
    [ "firewall-01"; "dc-server-01"; "db-server-01"; "ws-finance-01";
      "ws-finance-02"; "ws-hr-01"; "ws-it-01"; "mobile-ceo"; "printer-01" ].
Proof. vm_compute. reflexivity. Qed.

Example initial_links :
  topology_links (network_graph initial_network) =
    [ mkLink "firewall-01" "ws-finance-01";
      mkLink "firewall-01" "ws-finance-02";
      mkLink "firewall-01" "ws-hr-01";
      mkLink "firewall-01" "ws-it-01";
      mkLink "firewall-01" "mobile-ceo";
      mkLink "firewall-01" "printer-01";
      mkLink "dc-server-01" "firewall-01";
      mkLink "db-server-01" "firewall-01";
      mkLink "db-server-01" "dc-server-01";
      mkLink "ws-finance-01" "ws-finance-02" ].
Proof. vm_compute. reflexivity. Qed.

Example time_risk_by_hour :
  hour_risk <$> [0; 2; 6; 7; 8; 9; 13; 17; 18; 20; 21; 23] =
    [0.2; 0.2; 0.2; 0.6; 0.6; 0.9; 0.9; 0.9; 0.6; 0.6; 0.2; 0.2]%float.
Proof. reflexivity. Qed.

Example sensitivity_default : _get_resource_sensitivity "vault" = 0.5%float.
Proof. reflexivity. Qed.

Example format_f1_rounds :
  format_f1 <$> [0; 100; 0.25; 0.35; 77.77777777777779; 44.44444444444444]%float
    = ["0.0"; "100.0"; "0.2"; "0.3"; "77.8"; "44.4"].
Proof. vm_compute. reflexivity. Qed.

(** A risk of exactly one half is challenged, not allowed: bob.it on the
    printer asking for hr_records in extended hours. *)
Example half_risk_is_challenged :
  overall_risk_of 0.2 0.4 0.8 0.6 = 0.5%float /\
  baseline (overall_risk_of 0.2 0.4 0.8 0.6) =
    (CHALLENGE, "Medium risk - additional verification required").
Proof. split; vm_compute; reflexivity. Qed.

(** A zero-trust run through the firewall whose draws all succeed marks the
    entry point and four of its eight neighbours. *)
Example zerotrust_through_firewall :
  last (emitted (_simulate_zerotrust_attack "attack-0" "firewall-01"
                   fresh_world).2) =
    Some (attack_complete "zerotrust" 5 9 "44.4%" "attack-0" "firewall-01"
            1700000000).
Proof. vm_compute. reflexivity. Qed.

(** An activity batch emits ten updates and counts ten requests. *)
Example activity_batch_counts :
  let w := (simulate_normal_activity fresh_world).2 in
  length (emitted w) = 10%nat /\
  dict_get "total_requests" (activity_stats (self w)) = Some 10.
Proof. vm_compute. split; reflexivity. Qed.
